(** * Credit ledger and wagering engine of server.js

    A shallow embedding of the handlers of [server.js] that mutate the
    credit ledger: the withdrawal request and its approval, the photo vote,
    the two [/api/play] handlers and the admin game-config update.

    Conventions of the embedding.
    - A JavaScript number is an exact rational or [NaN]; the rounding of
      IEEE doubles, the infinities and the negative zero are not modelled.
      Results of arithmetic are kept in lowest terms.
    - A field that may be missing is a [value]: [undefined] or a number.
    - [db.data] is a record; every handler starts from the stored record
      ([db.read]) and returns the record it leaves behind together with its
      response.  A handler that answers before [db.write] leaves the stored
      record as it was.
    - [uuidv4()], [new Date().toISOString()] and [Math.random()] are inputs
      of the handler that calls them.
    - [authMiddleware] has run: the handler receives [req.user.id]; for the
      admin routes [adminOnly] has let the request through. *)

From Stdlib Require Import QArith Qround Lqa ZArith Lia String List Bool.
From stdpp Require Import gmap strings.
Import ListNotations.

Local Open Scope string_scope.
Local Open Scope Q_scope.

(** ** JavaScript numbers *)

Inductive number : Type :=
| Fin (q : Q)
| NaN.

Definition num (z : Z) : number := Fin (inject_Z z).

(** [a + b], [a - b], [a * b], [a / b] *)
Definition nadd (a b : number) : number :=
  match a, b with
  | Fin x, Fin y => Fin (Qred (x + y))
  | _, _ => NaN
  end.

Definition nsub (a b : number) : number :=
  match a, b with
  | Fin x, Fin y => Fin (Qred (x - y))
  | _, _ => NaN
  end.

Definition nmul (a b : number) : number :=
  match a, b with
  | Fin x, Fin y => Fin (Qred (x * y))
  | _, _ => NaN
  end.

(** Division by zero gives an infinity or [NaN] in JavaScript; the handlers
    only divide by the literal [100]. *)
Definition ndiv (a b : number) : number :=
  match a, b with
  | Fin x, Fin y => if Qeq_bool y 0 then NaN else Fin (Qred (x / y))
  | _, _ => NaN
  end.

(** [Math.floor(a)] *)
Definition Math_floor (a : number) : number :=
  match a with
  | Fin x => Fin (inject_Z (Qfloor x))
  | NaN => NaN
  end.

(** [a < b], [a <= b], [a > b]: false as soon as one side is [NaN] *)
Definition nlt (a b : number) : bool :=
  match a, b with
  | Fin x, Fin y => negb (Qle_bool y x)
  | _, _ => false
  end.

Definition nle (a b : number) : bool :=
  match a, b with
  | Fin x, Fin y => Qle_bool x y
  | _, _ => false
  end.

Definition ngt (a b : number) : bool := nlt b a.

(** [Math.max(a, b)] *)
Definition Math_max (a b : number) : number :=
  match a, b with
  | Fin x, Fin y => if Qle_bool x y then Fin y else Fin x
  | _, _ => NaN
  end.

(** Truthiness of a number: [0] and [NaN] are falsy. *)
Definition truthy (a : number) : bool :=
  match a with
  | Fin x => negb (Qeq_bool x 0)
  | NaN => false
  end.

(** [a || d] on numbers *)
Definition nor (a d : number) : number := if truthy a then a else d.

(** Numeric equality of two results ([NaN] only matches itself here: this
    is the equality of the model, not JavaScript's [===]). *)
Definition same_number (a b : number) : Prop :=
  match a, b with
  | Fin x, Fin y => x == y
  | NaN, NaN => True
  | _, _ => False
  end.

Definition nonneg (a : number) : Prop :=
  match a with
  | Fin x => 0 <= x
  | NaN => False
  end.

Definition negative (a : number) : Prop :=
  match a with
  | Fin x => x < 0
  | NaN => False
  end.

(** ** Values that may be missing *)

Inductive value : Type :=
| undefined
| Num (n : number).

(** [Number(v)] *)
Definition Number (v : value) : number :=
  match v with
  | undefined => NaN
  | Num n => n
  end.

(** [typeof v === 'number'] *)
Definition is_number (v : value) : bool :=
  match v with
  | undefined => false
  | Num _ => true
  end.

(** [v || d] where [d] is a number: [undefined] is falsy. *)
Definition vor (v : value) (d : number) : number :=
  match v with
  | undefined => d
  | Num n => nor n d
  end.

(** [a[i]] on an array: [undefined] out of range. *)
Definition at_index (a : list value) (i : nat) : value :=
  nth i a undefined.

(** ** Arrays of records *)

(** The effect of [const x = a.find(p); x.field = ...]: the first element
    that satisfies [p] is changed in place. *)
Fixpoint update_first {A : Type} (p : A -> bool) (f : A -> A) (l : list A) : list A :=
  match l with
  | [] => []
  | x :: l' => if p x then f x :: l' else x :: update_first p f l'
  end.

(** ** Records of db.json *)

Module User.
Record t : Type := mk
  { id : string; email : string; role : string; credits : number; name : string }.

Definition set_credits (c : number) (u : t) : t :=
  {| id := id u; email := email u; role := role u; credits := c; name := name u |}.
End User.

Inductive wstatus : Type := pending | approved | rejected.

Module Withdraw.
Record t : Type := mk
  { id : string; userId : string; amount : number; upi : string; utr : string;
    status : wstatus; createdAt : string; processedAt : option string }.

Definition process (s : wstatus) (now : string) (w : t) : t :=
  {| id := id w; userId := userId w; amount := amount w; upi := upi w; utr := utr w;
     status := s; createdAt := createdAt w; processedAt := Some now |}.
End Withdraw.

Module Photo.
Record t : Type := mk
  { id : string; challengeId : string; userId : string; title : string;
    votes : value; createdAt : string }.

Definition set_votes (v : number) (p : t) : t :=
  {| id := id p; challengeId := challengeId p; userId := userId p; title := title p;
     votes := Num v; createdAt := createdAt p |}.
End Photo.

Module GameConfig.
Record t : Type := mk
  { cost : value; feePercent : value; payoutMultipliers : option (list value);
    odds : option (list value); enabled : bool }.
End GameConfig.

Module Play.
Record t : Type := mk
  { id : string; userId : string; gameId : string; cost : number; fee : value;
    effectiveStake : value; multiplier : value; award : number; createdAt : string }.
End Play.

Module Fee.
Record t : Type := mk
  { id : string; gameId : string; fee : number; collectedAt : string }.
End Fee.

Module Game.
Record t : Type := mk { id : string; title : string }.
End Game.

(** [db.data].  [gameConfigs], [gamePlays] and [systemFees] are not created
    by [initDB]: they may be missing.  The challenges and the seed flag are
    read by none of the handlers below. *)
Record Data : Type := mkData
  { users : list User.t;
    withdraws : list Withdraw.t;
    games : option (list Game.t);
    photos : list Photo.t;
    gameConfigs : option (gmap string GameConfig.t);
    gamePlays : option (list Play.t);
    systemFees : option (list Fee.t) }.

Definition set_users (us : list User.t) (d : Data) : Data :=
  {| users := us; withdraws := withdraws d; games := games d; photos := photos d;
     gameConfigs := gameConfigs d; gamePlays := gamePlays d; systemFees := systemFees d |}.

Definition set_withdraws (ws : list Withdraw.t) (d : Data) : Data :=
  {| users := users d; withdraws := ws; games := games d; photos := photos d;
     gameConfigs := gameConfigs d; gamePlays := gamePlays d; systemFees := systemFees d |}.

Definition set_photos (ps : list Photo.t) (d : Data) : Data :=
  {| users := users d; withdraws := withdraws d; games := games d; photos := ps;
     gameConfigs := gameConfigs d; gamePlays := gamePlays d; systemFees := systemFees d |}.

Definition set_games (gs : option (list Game.t)) (d : Data) : Data :=
  {| users := users d; withdraws := withdraws d; games := gs; photos := photos d;
     gameConfigs := gameConfigs d; gamePlays := gamePlays d; systemFees := systemFees d |}.

Definition set_gameConfigs (cs : option (gmap string GameConfig.t)) (d : Data) : Data :=
  {| users := users d; withdraws := withdraws d; games := games d; photos := photos d;
     gameConfigs := cs; gamePlays := gamePlays d; systemFees := systemFees d |}.

Definition set_gamePlays (ps : option (list Play.t)) (d : Data) : Data :=
  {| users := users d; withdraws := withdraws d; games := games d; photos := photos d;
     gameConfigs := gameConfigs d; gamePlays := ps; systemFees := systemFees d |}.

Definition set_systemFees (fs : option (list Fee.t)) (d : Data) : Data :=
  {| users := users d; withdraws := withdraws d; games := games d; photos := photos d;
     gameConfigs := gameConfigs d; gamePlays := gamePlays d; systemFees := fs |}.

Definition is_user (uid : string) (u : User.t) : bool := String.eqb (User.id u) uid.
Definition is_withdraw (id : string) (x : Withdraw.t) : bool := String.eqb (Withdraw.id x) id.

(** [db.data.users.find(u => u.id === uid)] *)
Definition find_user (uid : string) (d : Data) : option User.t :=
  find (is_user uid) (users d).

(** The balance the ledger shows for [uid]. *)
Definition balance (uid : string) (d : Data) : option number :=
  option_map User.credits (find_user uid d).

(** ** Responses *)

(** A handler answers with a JSON body (status 200), answers
    [res.status(code).json({error: msg})], or throws before answering (a
    [TypeError] on a property of [undefined]). *)
Inductive response (B : Type) : Type :=
| Json (body : B)
| Error (status : nat) (error : string)
| Throws.
Arguments Json {B} body.
Arguments Error {B} status error.
Arguments Throws {B}.

(** The error answers of the handlers, under the names the specification
    gives them. *)
Definition InsufficientFunds {B : Type} : response B := Error 400 "Insufficient credits".
Definition InvalidAmount {B : Type} : response B := Error 400 "Invalid amount".
Definition NotFound {B : Type} : response B := Error 404 "Not found".
Definition PhotoNotFound {B : Type} : response B := Error 404 "Photo not found".
Definition UserNotFound {B : Type} : response B := Error 404 "User not found".
Definition GameNotFound {B : Type} : response B := Error 404 "Game config not found".
Definition GameDisabled {B : Type} : response B := Error 400 "Game is disabled".

Definition is_error {B : Type} (r : response B) : bool :=
  match r with
  | Error _ _ => true
  | _ => false
  end.

Definition succeeded {B : Type} (r : response B) : bool :=
  match r with
  | Json _ => true
  | _ => false
  end.

(** [s || ''] on an optional string *)
Definition str_or_empty (s : option string) : string :=
  match s with
  | Some x => x
  | None => ""
  end.

(** [!s] on an optional string: true when it is missing or empty. *)
Definition missing (s : option string) : bool :=
  match s with
  | Some x => String.eqb x ""
  | None => true
  end.

(** ** POST /api/wallet/withdraw *)

Definition wallet_withdraw (uid : string) (amount : value) (upi utr : option string)
    (uuid now : string) (d : Data) : Data * response Withdraw.t :=
  if nle (Number amount) (num 0) then (d, InvalidAmount) else
  match find_user uid d with
  | None => (d, Throws)
  | Some user =>
      if nlt (User.credits user) (Number amount) then (d, InsufficientFunds) else
      let w := {| Withdraw.id := uuid; Withdraw.userId := User.id user;
                  Withdraw.amount := Number amount;
                  Withdraw.upi := str_or_empty upi; Withdraw.utr := str_or_empty utr;
                  Withdraw.status := pending; Withdraw.createdAt := now;
                  Withdraw.processedAt := None |} in
      (set_withdraws (withdraws d ++ [w])%list d, Json w)
  end.

(** ** POST /api/admin/withdraws/:id/:action *)

Definition debit (a : number) (u : User.t) : User.t :=
  User.set_credits (nsub (User.credits u) a) u.

Definition credit (a : number) (u : User.t) : User.t :=
  User.set_credits (nadd (User.credits u) a) u.

Definition admin_withdraw (id action now : string) (d : Data) : Data * response Withdraw.t :=
  match find (is_withdraw id) (withdraws d) with
  | None => (d, NotFound)
  | Some w =>
      if negb (existsb (String.eqb action) ["approve"; "reject"]) then (d, Error 400 "Bad action") else
      let s := if String.eqb action "approve" then approved else rejected in
      let w' := Withdraw.process s now w in
      let d1 := set_withdraws (update_first (is_withdraw id) (Withdraw.process s now) (withdraws d)) d in
      match s with
      | approved =>
          match find_user (Withdraw.userId w') d1 with
          | Some _ =>
              (set_users (update_first (is_user (Withdraw.userId w')) (debit (Withdraw.amount w')) (users d1)) d1,
               Json w')
          | None => (d1, Json w')
          end
      | _ => (d1, Json w')
      end
  end.

(** [db.data.users = db.data.users.map(u => u.id === user.id ? user : u)] *)
Definition replace_user (user : User.t) (us : list User.t) : list User.t :=
  map (fun u => if String.eqb (User.id u) (User.id user) then user else u) us.

(** ** POST /api/challenges/:id/photos/:photoId/vote *)

Definition costPerVote : number := num 10.

Definition is_photo (photoId cid : string) (p : Photo.t) : bool :=
  String.eqb (Photo.id p) photoId && String.eqb (Photo.challengeId p) cid.

(** [Math.max(1, Number(amount) || 1)] *)
Definition vote_count (amount : value) : number :=
  Math_max (num 1) (nor (Number amount) (num 1)).

Definition vote (uid cid photoId : string) (amount : value) (d : Data)
    : Data * response (Photo.t * number) :=
  let votes := vote_count amount in
  match find (is_photo photoId cid) (photos d) with
  | None => (d, PhotoNotFound)
  | Some photo =>
      match find_user uid d with
      | None => (d, Throws)
      | Some user =>
          let totalCost := nmul votes costPerVote in
          if nlt (User.credits user) totalCost then (d, InsufficientFunds) else
          let user' := debit totalCost user in
          let photo' := Photo.set_votes (nadd (vor (Photo.votes photo) (num 0)) votes) photo in
          let us := update_first (is_user uid) (debit totalCost) (users d) in
          let ps := update_first (is_photo photoId cid)
                      (fun p => Photo.set_votes (nadd (vor (Photo.votes p) (num 0)) votes) p)
                      (photos d) in
          let ps' := map (fun p => if String.eqb (Photo.id p) (Photo.id photo') then photo' else p) ps in
          let us' := replace_user user' us in
          (set_users us' (set_photos ps' d), Json (photo', User.credits user'))
      end
  end.

(** ** POST /api/play, first handler: the caller supplies cost and result *)

Record PlayBody : Type := mkPlayBody
  { gameId : option string; cost : value; result : value }.

Definition or_empty {A : Type} (l : option (list A)) : list A :=
  match l with
  | Some x => x
  | None => []
  end.

(** [if(award > 0) user.credits += award] *)
Definition credit_if_positive (award : number) (u : User.t) : User.t :=
  if ngt award (num 0) then credit award u else u.

Definition play_simple (uid : string) (body : PlayBody) (uuid now : string) (d : Data)
    : Data * response (number * Play.t) :=
  if missing (gameId body) || negb (is_number (cost body)) then (d, Error 400 "Missing params") else
  match find_user uid d with
  | None => (d, UserNotFound)
  | Some user =>
      let cost := Number (cost body) in
      if nlt (User.credits user) cost then (d, InsufficientFunds) else
      let award := nor (Number (result body)) (num 0) in
      let settle := fun u => credit_if_positive award (debit cost u) in
      let user' := settle user in
      let play := {| Play.id := uuid; Play.userId := User.id user';
                     Play.gameId := str_or_empty (gameId body);
                     Play.cost := cost; Play.fee := undefined;
                     Play.effectiveStake := undefined; Play.multiplier := undefined;
                     Play.award := award; Play.createdAt := now |} in
      let us := replace_user user' (update_first (is_user uid) settle (users d)) in
      (set_users us
         (set_gamePlays (Some (or_empty (gamePlays d) ++ [play])%list)
            (set_games (Some (or_empty (games d))) d)),
       Json (User.credits user', play))
  end.

(** ** POST /api/play, second handler: the server draws the outcome *)

(** The loop over [odds]: [i] is the index of the head of [odds] in the
    array, [cumulative] the running sum.  The result is [chosenMultiplier]. *)
Fixpoint odds_walk (rnd : number) (multipliers : list value) (odds : list value)
    (i : nat) (cumulative : number) : number :=
  match odds with
  | [] => num 0
  | o :: rest =>
      let cumulative' := nadd cumulative (nor (Number o) (num 0)) in
      if nle rnd cumulative' then nor (Number (at_index multipliers i)) (num 0)
      else odds_walk rnd multipliers rest (S i) cumulative'
  end.

(** The index at which the loop above breaks, if it does. *)
Fixpoint chosen_index (rnd : number) (odds : list value) (i : nat) (cumulative : number)
    : option nat :=
  match odds with
  | [] => None
  | o :: rest =>
      let cumulative' := nadd cumulative (nor (Number o) (num 0)) in
      if nle rnd cumulative' then Some i
      else chosen_index rnd rest (S i) cumulative'
  end.

Definition chosenMultiplier (rnd : Q) (cfg : GameConfig.t) : number :=
  odds_walk (Fin rnd) (or_empty (GameConfig.payoutMultipliers cfg))
    (or_empty (GameConfig.odds cfg)) 0 (num 0).

(** [Number(cfg.cost) || 0] *)
Definition cfg_cost (cfg : GameConfig.t) : number := nor (Number (GameConfig.cost cfg)) (num 0).

(** [Number(cfg.feePercent || 0)] *)
Definition cfg_feePercent (cfg : GameConfig.t) : number := vor (GameConfig.feePercent cfg) (num 0).

(** [Math.floor((cost * feePercent) / 100)] *)
Definition fee_of (cost feePercent : number) : number :=
  Math_floor (ndiv (nmul cost feePercent) (num 100)).

(** [Math.floor(effectiveStake * chosenMultiplier)] *)
Definition award_of (effectiveStake multiplier : number) : number :=
  Math_floor (nmul effectiveStake multiplier).

Definition play_secure (uid : string) (gameId : option string) (rnd : Q)
    (feeUuid playUuid now : string) (d : Data) : Data * response (number * Play.t) :=
  if missing gameId then (d, Error 400 "Missing gameId") else
  match gameConfigs d ≫= (fun cs => cs !! str_or_empty gameId) with
  | None => (d, GameNotFound)
  | Some cfg =>
      if negb (GameConfig.enabled cfg) then (d, GameDisabled) else
      match find_user uid d with
      | None => (d, UserNotFound)
      | Some user =>
          let cost := cfg_cost cfg in
          if nlt (User.credits user) cost then (d, InsufficientFunds) else
          let feePercent := cfg_feePercent cfg in
          let fee := fee_of cost feePercent in
          let effectiveStake := nsub cost fee in
          let multiplier := chosenMultiplier rnd cfg in
          let award := award_of effectiveStake multiplier in
          let settle := fun u => credit_if_positive award (debit cost u) in
          let user' := settle user in
          let feeRecord := {| Fee.id := feeUuid; Fee.gameId := str_or_empty gameId;
                              Fee.fee := fee; Fee.collectedAt := now |} in
          let play := {| Play.id := playUuid; Play.userId := User.id user';
                         Play.gameId := str_or_empty gameId;
                         Play.cost := cost; Play.fee := Num fee;
                         Play.effectiveStake := Num effectiveStake;
                         Play.multiplier := Num multiplier;
                         Play.award := award; Play.createdAt := now |} in
          let us := replace_user user' (update_first (is_user uid) settle (users d)) in
          (set_users us
             (set_gamePlays (Some (or_empty (gamePlays d) ++ [play])%list)
                (set_systemFees (Some (or_empty (systemFees d) ++ [feeRecord])%list) d)),
           Json (User.credits user', play))
      end
  end.

(** ** PUT /api/admin/games/:gameId *)

(** The request body: a field that is [undefined] (or [None]) is left as it
    is in the stored config. *)
Record Patch : Type := mkPatch
  { p_cost : value; p_feePercent : value; p_payoutMultipliers : option (list value);
    p_odds : option (list value); p_enabled : option bool }.

Definition patched (payload : Patch) (cur : GameConfig.t) : GameConfig.t :=
  {| GameConfig.cost :=
       match p_cost payload with undefined => GameConfig.cost cur | v => Num (Number v) end;
     GameConfig.feePercent :=
       match p_feePercent payload with undefined => GameConfig.feePercent cur | v => Num (Number v) end;
     GameConfig.payoutMultipliers :=
       match p_payoutMultipliers payload with None => GameConfig.payoutMultipliers cur | v => v end;
     GameConfig.odds :=
       match p_odds payload with None => GameConfig.odds cur | v => v end;
     GameConfig.enabled :=
       match p_enabled payload with None => GameConfig.enabled cur | Some b => b end |}.

Definition admin_update_game (gameId : string) (payload : Patch) (d : Data)
    : Data * response GameConfig.t :=
  let configs := default ∅ (gameConfigs d) in
  match configs !! gameId with
  | None => (d, Error 404 "Game not found")
  | Some cur =>
      let cur' := patched payload cur in
      (set_gameConfigs (Some (<[gameId := cur']> configs)) d, Json cur')
  end.

(** ** The seed of [initDB] *)

Definition seed_games : list Game.t :=
  map (fun n => {| Game.id := "game-" ++ n; Game.title := "Mini Game " ++ n |})
    ["1"; "2"; "3"; "4"; "5"; "6"; "7"; "8"; "9"; "10"].

(** [db.data] after [initDB] on an empty store; [demoId] and [photoId] are
    the two [uuidv4()] of the seed. *)
Definition initDB (demoId photoId now : string) : Data :=
  {| users :=
       [ {| User.id := "admin"; User.email := "admin@example.com"; User.role := "admin";
            User.credits := num 0; User.name := "Administrator" |};
         {| User.id := demoId; User.email := "user@example.com"; User.role := "user";
            User.credits := num 1000; User.name := "Demo User" |} ];
     withdraws := [];
     games := Some seed_games;
     photos :=
       [ {| Photo.id := photoId; Photo.challengeId := "challenge-1"; Photo.userId := demoId;
            Photo.title := "Demo Photo"; Photo.votes := Num (num 0); Photo.createdAt := now |} ];
     gameConfigs := None;
     gamePlays := None;
     systemFees := None |}.

(** ** Ledgers of the scenarios *)

Definition alice (c : number) : User.t :=
  {| User.id := "alice"; User.email := "alice@example.com"; User.role := "user";
     User.credits := c; User.name := "Alice" |}.

(** A withdrawal request of [alice] for 50 credits, in status [s]. *)
Definition request50 (s : wstatus) (processed : option string) : Withdraw.t :=
  {| Withdraw.id := "w-1"; Withdraw.userId := "alice"; Withdraw.amount := num 50;
     Withdraw.upi := "alice@upi"; Withdraw.utr := ""; Withdraw.status := s;
     Withdraw.createdAt := "2024-01-01T00:00:00.000Z"; Withdraw.processedAt := processed |}.

Definition sunset (v : value) : Photo.t :=
  {| Photo.id := "p-1"; Photo.challengeId := "challenge-1"; Photo.userId := "bob";
     Photo.title := "Sunset"; Photo.votes := v;
     Photo.createdAt := "2024-01-01T00:00:00.000Z" |}.

Definition ledger (us : list User.t) (ws : list Withdraw.t) (ps : list Photo.t)
    (cs : option (gmap string GameConfig.t)) : Data :=
  {| users := us; withdraws := ws; games := Some seed_games; photos := ps;
     gameConfigs := cs; gamePlays := None; systemFees := None |}.



(** Alice asked for 50 credits when she held them; she now holds 30. *)
Definition ledger_short : Data :=
  ledger [alice (num 30)] [request50 pending None] [] None.

(** A run from the seed: the demo user asks to withdraw the 1000 credits of
    the seed, casts 5 votes, and the admin approves the request. *)
Definition run_seed : Data := initDB "demo" "photo" "2024-01-01T00:00:00.000Z".

Definition run_requested : Data * response Withdraw.t :=
  wallet_withdraw "demo" (Num (num 1000)) (Some "demo@upi") None "w-1"
    "2024-01-02T00:00:00.000Z" run_seed.

Definition run_voted : Data * response (Photo.t * number) :=
  vote "demo" "challenge-1" "photo" (Num (num 5)) (fst run_requested).

Definition run_approved : Data * response Withdraw.t :=
  admin_withdraw "w-1" "approve" "2024-01-03T00:00:00.000Z" (fst run_voted).


(** Alice holds 5 credits; the photo has 3 votes. *)
Definition ledger_poor : Data :=
  ledger [alice (num 5)] [] [sunset (Num (num 3))] None.


(** ** The odds walk, in the words of the specification *)

(** What an entry of [odds] adds to the running sum: [Number(o) || 0]. *)
Definition weight (o : value) : Q :=
  match nor (Number o) (num 0) with
  | Fin q => q
  | NaN => 0
  end.

Fixpoint total (odds : list value) : Q :=
  match odds with
  | [] => 0
  | o :: rest => weight o + total rest
  end.

(** The cumulative sum of [odds[0..i]]. *)
Definition running_sum (odds : list value) (i : nat) : Q := total (firstn (S i) odds).

(** [i] is the first index at which the running sum, started at [c],
    reaches or exceeds [r]. *)
Definition first_reaching_from (c r : Q) (odds : list value) (i : nat) : Prop :=
  (i < length odds)%nat /\
  r <= c + running_sum odds i /\
  forall j, (j < i)%nat -> c + running_sum odds j < r.

Definition first_reaching (r : Q) (odds : list value) (i : nat) : Prop :=
  (i < length odds)%nat /\
  r <= running_sum odds i /\
  forall j, (j < i)%nat -> running_sum odds j < r.

(** The game of the scenario: odds 0.1, 0.2, 0.7 with multipliers 5, 2, 0;
    a play costs 100 credits, of which 10 percent are the fee. *)
Definition game_wheel : GameConfig.t :=
  {| GameConfig.cost := Num (num 100);
     GameConfig.feePercent := Num (num 10);
     GameConfig.payoutMultipliers := Some [Num (num 5); Num (num 2); Num (num 0)];
     GameConfig.odds := Some [Num (Fin (1 # 10)); Num (Fin (2 # 10)); Num (Fin (7 # 10))];
     GameConfig.enabled := true |}.



(** A game that doubles the stake with probability one half. *)
Definition game_coin : GameConfig.t :=
  {| GameConfig.cost := Num (num 100);
     GameConfig.feePercent := Num (num 10);
     GameConfig.payoutMultipliers := Some [Num (num 2)];
     GameConfig.odds := Some [Num (Fin (1 # 2))];
     GameConfig.enabled := true |}.

(** Alice holds 1000 credits; the store has the one game [cfg] as "g-1". *)
Definition casino (cfg : GameConfig.t) : Data :=
  ledger [alice (num 1000)] [] [] (Some {[ "g-1" := cfg ]}).

Definition body_coin : PlayBody :=
  {| gameId := Some "g-1"; cost := Num (num 100); result := Num (num 50) |}.

(** The config of [gameId] in the store: [db.data.gameConfigs && db.data.gameConfigs[gameId]]. *)
Definition game_config (gameId : string) (d : Data) : option GameConfig.t :=
  gameConfigs d ≫= (fun cs => cs !! gameId).


(** An update of the odds alone, to two outcomes. *)
Definition patch_two_odds : Patch :=
  {| p_cost := undefined; p_feePercent := undefined; p_payoutMultipliers := None;
     p_odds := Some [Num (Fin (1 # 2)); Num (Fin (1 # 2))]; p_enabled := None |}.

Definition game_coin_two_odds : GameConfig.t :=
  {| GameConfig.cost := Num (num 100);
     GameConfig.feePercent := Num (num 10);
     GameConfig.payoutMultipliers := Some [Num (num 2)];
     GameConfig.odds := Some [Num (Fin (1 # 2)); Num (Fin (1 # 2))];
     GameConfig.enabled := true |}.


(** * The other handlers of the ledger *)

(** ** POST /api/signup *)

(** [name || 'Player'] *)
Definition name_or_player (name : option string) : string :=
  if missing name then "Player" else str_or_empty name.

Definition has_email (email : string) (u : User.t) : bool := String.eqb (User.email u) email.

(** The body of the answers of signup and profile:
    [{id, email, credits, name}]. *)
Record UserView : Type := mkUserView
  { v_id : string; v_email : string; v_credits : number; v_name : string }.

Definition view (u : User.t) : UserView :=
  {| v_id := User.id u; v_email := User.email u; v_credits := User.credits u;
     v_name := User.name u |}.

(** The password hash of the new account is not part of [User.t]; the token
    that [jwt.sign] returns is an input.  The answer is [{token, user}]. *)
Definition signup (email : string) (name : option string) (uuid token : string) (d : Data)
    : Data * response (string * UserView) :=
  match find (has_email email) (users d) with
  | Some _ => (d, Error 400 "Email exists")
  | None =>
      let user := {| User.id := uuid; User.email := email; User.role := "user";
                     User.credits := num 500; User.name := name_or_player name |} in
      (set_users (users d ++ [user])%list d, Json (token, view user))
  end.

(** ** adminOnly *)


(** ** GET /api/profile and GET /api/wallet *)

Definition profile (uid : string) (d : Data) : response UserView :=
  match find_user uid d with
  | None => NotFound
  | Some user => Json (view user)
  end.

(** [{credits: user ? user.credits : 0}] *)
Definition wallet (uid : string) (d : Data) : number :=
  match find_user uid d with
  | Some user => User.credits user
  | None => num 0
  end.

(** ** POST /api/wallet/deposit *)

Definition wallet_deposit (uid : string) (amount : value) (d : Data) : Data * response number :=
  if nle (Number amount) (num 0) then (d, InvalidAmount) else
  match find_user uid d with
  | None => (d, Throws)
  | Some user =>
      (set_users (update_first (is_user uid) (credit (Number amount)) (users d)) d,
       Json (User.credits (credit (Number amount) user)))
  end.

(** ** DELETE /api/admin/photos/:id *)

Definition has_photo_id (id : string) (p : Photo.t) : bool := String.eqb (Photo.id p) id.

(** [a.splice(a.findIndex(p), 1)] when the index is not -1 *)
Fixpoint remove_first {A : Type} (p : A -> bool) (l : list A) : list A :=
  match l with
  | [] => []
  | x :: l' => if p x then l' else x :: remove_first p l'
  end.

(** The file of the photo is unlinked outside the ledger. *)
Definition admin_delete_photo (id : string) (d : Data) : Data * response unit :=
  match find (has_photo_id id) (photos d) with
  | None => (d, NotFound)
  | Some _ => (set_photos (remove_first (has_photo_id id) (photos d)) d, Json tt)
  end.

(** * Invariants of the ledger *)

(** No account has a negative balance. *)
Definition solvent (d : Data) : Prop :=
  Forall (fun u => nonneg (User.credits u)) (users d).

(** The ids of the accounts, of the requests and of the photos, and the
    emails of the accounts, are pairwise distinct. *)
Definition unique_users (d : Data) : Prop := NoDup (map User.id (users d)).
Definition unique_photos (d : Data) : Prop := NoDup (map Photo.id (photos d)).

(** The fee of every play that records one, with its game, in the order of
    the plays; and the same for the fee records. *)
Fixpoint played_fees (ps : list Play.t) : list (string * number) :=
  match ps with
  | [] => []
  | p :: rest =>
      match Play.fee p with
      | Num f => (Play.gameId p, f) :: played_fees rest
      | undefined => played_fees rest
      end
  end.

Definition collected_fees (fs : list Fee.t) : list (string * number) :=
  map (fun f => (Fee.gameId f, Fee.fee f)) fs.

Definition fees_reconciled (d : Data) : Prop :=
  collected_fees (or_empty (systemFees d)) = played_fees (or_empty (gamePlays d)).

(** A patch that only disables the game. *)
Definition patch_disable : Patch :=
  {| p_cost := undefined; p_feePercent := undefined; p_payoutMultipliers := None;
     p_odds := None; p_enabled := Some false |}.

(** The empty patch. *)
Definition patch_nothing : Patch :=
  {| p_cost := undefined; p_feePercent := undefined; p_payoutMultipliers := None;
     p_odds := None; p_enabled := None |}.

Definition bob (c : number) : User.t :=
  {| User.id := "bob"; User.email := "bob@example.com"; User.role := "user";
     User.credits := c; User.name := "Bob" |}.


(** What a decision must not change in a request: everything but the status
    and the processing time. *)
Definition request_core (w : Withdraw.t) : string * string * number * string * string * string :=
  (Withdraw.id w, Withdraw.userId w, Withdraw.amount w, Withdraw.upi w, Withdraw.utr w,
   Withdraw.createdAt w).


(** * Properties *)

(** ** Arrays: [find] after an update in place *)

Section UpdateFirst.
Context {A : Type} (p : A -> bool) (f : A -> A).
Hypothesis f_keeps_p : forall x, p (f x) = p x.

Lemma find_update_first (l : list A) :
  find p (update_first p f l) = option_map f (find p l).
Proof.
  induction l as [|x l IH]; simpl; [reflexivity|].
  destruct (p x) eqn:Hx; simpl.
  - rewrite f_keeps_p, Hx. reflexivity.
  - rewrite Hx. exact IH.
Qed.

End UpdateFirst.

Lemma find_some_holds {A : Type} (p : A -> bool) (l : list A) (x : A) :
  find p l = Some x -> p x = true.
Proof. intros H. apply find_some in H. tauto. Qed.

Lemma is_user_id uid u : is_user uid u = true -> User.id u = uid.
Proof. unfold is_user. apply String.eqb_eq. Qed.


Lemma is_withdraw_process id s now w :
  is_withdraw id (Withdraw.process s now w) = is_withdraw id w.
Proof. reflexivity. Qed.

(** [users.map(u => u.id === user.id ? user : u)] after the update in place
    of the first user with this id: a lookup by the id finds [user]. *)
Lemma find_replace_user uid (user' : User.t) (us : list User.t) :
  User.id user' = uid ->
  find (is_user uid) us = Some user' ->
  find (is_user uid) (replace_user user' us) = Some user'.
Proof.
  intros Hid. induction us as [|x us IH]; simpl; [discriminate|].
  unfold is_user at 1. rewrite Hid.
  destruct (String.eqb (User.id x) uid) eqn:Hx.
  - intros _. simpl. unfold is_user. rewrite Hid, String.eqb_refl. reflexivity.
  - intros H. simpl. unfold is_user at 1. rewrite Hx. apply IH.
    unfold is_user in H at 1. exact H.
Qed.

(** The lookup after the two writes of the play and vote handlers. *)
Lemma find_settled uid (settle : User.t -> User.t) (user : User.t) (us : list User.t) :
  (forall u, User.id (settle u) = User.id u) ->
  find (is_user uid) us = Some user ->
  find (is_user uid) (replace_user (settle user) (update_first (is_user uid) settle us))
  = Some (settle user).
Proof.
  intros Hk Hf. apply find_replace_user.
  - rewrite Hk. apply is_user_id. eapply find_some_holds; eauto.
  - rewrite find_update_first, Hf; [reflexivity|].
    intros x. unfold is_user. rewrite Hk. reflexivity.
Qed.

(** ** Numbers *)

Lemma nlt_false_le (x y : Q) : nlt (Fin x) (Fin y) = false -> y <= x.
Proof.
  unfold nlt. intros H. apply negb_false_iff in H. apply Qle_bool_iff. exact H.
Qed.

Lemma nlt_true_lt (x y : Q) : nlt (Fin x) (Fin y) = true -> x < y.
Proof.
  unfold nlt. intros H. apply negb_true_iff in H.
  apply Qnot_le_lt. intros Hle. apply Qle_bool_iff in Hle. congruence.
Qed.

Lemma nle_true_le (x y : Q) : nle (Fin x) (Fin y) = true <-> x <= y.
Proof. unfold nle. apply Qle_bool_iff. Qed.

Lemma nle_false_lt (x y : Q) : nle (Fin x) (Fin y) = false <-> y < x.
Proof.
  unfold nle. split; intros H.
  - apply Qnot_le_lt. intros Hle. apply Qle_bool_iff in Hle. congruence.
  - destruct (Qle_bool x y) eqn:E; [|reflexivity].
    apply Qle_bool_iff in E. exfalso. apply (Qlt_not_le _ _ H E).
Qed.

(** [a || d] is a finite number as soon as [d] is. *)
Lemma nor_fin (a : number) (d : Q) : exists q, nor a (Fin d) = Fin q.
Proof.
  unfold nor. destruct a as [x|]; simpl; [|eauto].
  destruct (negb (Qeq_bool x 0)); eauto.
Qed.

(** A debit that passed the guard [credits < amount] leaves a balance that
    is not negative. *)
Lemma guarded_debit_nonneg (c a : Q) :
  nlt (Fin c) (Fin a) = false -> nonneg (nsub (Fin c) (Fin a)).
Proof.
  intros H. apply nlt_false_le in H. simpl. rewrite Qred_correct. lra.
Qed.

(** ** Withdrawal workflow *)

(** What POST /api/admin/withdraws/:id/:action does on a request it finds,
    for the two actions it knows. *)
Lemma admin_withdraw_found (id action now : string) (d : Data) (w : Withdraw.t) :
  find (is_withdraw id) (withdraws d) = Some w ->
  action = "approve" \/ action = "reject" ->
  let s := if String.eqb action "approve" then approved else rejected in
  let d1 := set_withdraws (update_first (is_withdraw id) (Withdraw.process s now) (withdraws d)) d in
  admin_withdraw id action now d =
    (match s, find_user (Withdraw.userId w) d with
     | approved, Some _ =>
         set_users (update_first (is_user (Withdraw.userId w)) (debit (Withdraw.amount w)) (users d)) d1
     | _, _ => d1
     end,
     Json (Withdraw.process s now w)).
Proof.
  intros Hf Ha. unfold admin_withdraw. rewrite Hf.
  destruct Ha as [-> | ->]; simpl; [|reflexivity].
  unfold find_user. simpl.
  destruct (find (is_user (Withdraw.userId w)) (users d)); reflexivity.
Qed.

(** The decision has two error answers: 404 for a request it does not find
    and 400 for an action other than approve and reject.  Both leave the
    ledger as it was. *)
Lemma admin_withdraw_error (id action now : string) (d : Data) :
  is_error (snd (admin_withdraw id action now d)) = true ->
  admin_withdraw id action now d = (d, NotFound) \/
  admin_withdraw id action now d = (d, Error 400 "Bad action").
Proof.
  unfold admin_withdraw.
  destruct (find (is_withdraw id) (withdraws d)) as [w|]; [|left; reflexivity].
  destruct (negb (existsb (String.eqb action) ["approve"; "reject"])); [right; reflexivity|].
  destruct (String.eqb action "approve"); [|discriminate].
  cbn iota. destruct (find_user _ _); discriminate.
Qed.

(** C1, at the input where the code leaves the claim: the balance guard of
    the debits is missing in the approval.  From the seed of [initDB], where
    no balance is negative, three successful requests (a withdrawal request
    for 1000 credits, 5 votes, the approval of the request) reach a ledger
    in which the demo user's balance is -50. *)
Theorem approval_reaches_negative_balance :
  Forall (fun u => nonneg (User.credits u)) (users run_seed) /\
  succeeded (snd run_requested) = true /\
  balance "demo" (fst run_requested) = Some (num 1000) /\
  succeeded (snd run_voted) = true /\
  balance "demo" (fst run_voted) = Some (num 950) /\
  snd run_approved =
    Json {| Withdraw.id := "w-1"; Withdraw.userId := "demo"; Withdraw.amount := num 1000;
            Withdraw.upi := "demo@upi"; Withdraw.utr := ""; Withdraw.status := approved;
            Withdraw.createdAt := "2024-01-02T00:00:00.000Z";
            Withdraw.processedAt := Some "2024-01-03T00:00:00.000Z" |} /\
  balance "demo" (fst run_approved) = Some (num (-50)) /\
  negative (num (-50)).
Proof.
  repeat split; try reflexivity.
  - repeat constructor; simpl; discriminate.
Qed.




(** C3, at the input of the scenario: the request is pending, the balance
    is 30 and the amount 50.  The approval is answered with the request,
    now approved, and the balance becomes -20. *)
Theorem approval_with_short_balance :
  Withdraw.status (request50 pending None) = pending /\
  balance "alice" ledger_short = Some (num 30) /\
  admin_withdraw "w-1" "approve" "2024-01-05T00:00:00.000Z" ledger_short =
    (ledger [alice (num (-20))] [request50 approved (Some "2024-01-05T00:00:00.000Z")] [] None,
     Json (request50 approved (Some "2024-01-05T00:00:00.000Z"))).
Proof. repeat split. Qed.

(** C10: when no account has the id of the request's user, the approval is
    still answered with the request, approved and stamped with the
    processing time, and the accounts are left as they were. *)
Theorem approval_without_account (id now : string) (d : Data) (w : Withdraw.t) :
  find (is_withdraw id) (withdraws d) = Some w ->
  find_user (Withdraw.userId w) d = None ->
  let r := admin_withdraw id "approve" now d in
  snd r = Json (Withdraw.process approved now w) /\
  Withdraw.status (Withdraw.process approved now w) = approved /\
  Withdraw.processedAt (Withdraw.process approved now w) = Some now /\
  Withdraw.amount (Withdraw.process approved now w) = Withdraw.amount w /\
  find (is_withdraw id) (withdraws (fst r)) = Some (Withdraw.process approved now w) /\
  users (fst r) = users d.
Proof.
  intros Hf Hu r. subst r.
  rewrite (admin_withdraw_found id "approve" now d w Hf (or_introl eq_refl)).
  simpl. rewrite Hu. simpl. repeat split.
  rewrite find_update_first, Hf; [reflexivity|]. intros x. apply is_withdraw_process.
Qed.

Lemma approval_without_account_witness :
  users (fst (admin_withdraw "w-1" "approve" "2024-01-05T00:00:00.000Z"
                (ledger [] [request50 pending None] [] None))) = [].
Proof.
  apply (approval_without_account "w-1" "2024-01-05T00:00:00.000Z"
           (ledger [] [request50 pending None] [] None) (request50 pending None)
           eq_refl eq_refl).
Defined.

(** The request is accepted when the amount is positive, the account exists
    and its balance is not below the amount. *)
Lemma wallet_withdraw_accepts (uid : string) (amount : value) (upi utr : option string)
    (uuid now : string) (d : Data) (user : User.t) :
  nle (Number amount) (num 0) = false ->
  find_user uid d = Some user ->
  nlt (User.credits user) (Number amount) = false ->
  exists w, wallet_withdraw uid amount upi utr uuid now d
            = (set_withdraws (withdraws d ++ [w])%list d, Json w).
Proof.
  intros Ha Hu Hc. unfold wallet_withdraw. rewrite Ha, Hu, Hc. eauto.
Qed.

(** C9: a withdrawal request that is accepted appends one record, in status
    [pending], for the amount asked, and leaves the accounts, so every
    balance, as they were. *)
Theorem wallet_withdraw_keeps_balance (uid : string) (amount : value) (upi utr : option string)
    (uuid now : string) (d : Data) (w : Withdraw.t) :
  snd (wallet_withdraw uid amount upi utr uuid now d) = Json w ->
  let d' := fst (wallet_withdraw uid amount upi utr uuid now d) in
  Withdraw.status w = pending /\
  Withdraw.processedAt w = None /\
  Withdraw.id w = uuid /\
  Withdraw.userId w = uid /\
  Withdraw.amount w = Number amount /\
  withdraws d' = (withdraws d ++ [w])%list /\
  users d' = users d /\
  (forall u, balance u d' = balance u d).
Proof.
  unfold wallet_withdraw.
  destruct (nle (Number amount) (num 0)); [discriminate|].
  destruct (find_user uid d) as [user|] eqn:Hu; [|discriminate].
  destruct (nlt (User.credits user) (Number amount)); [discriminate|].
  simpl. intros [= <-]. simpl.
  repeat split.
  apply is_user_id. unfold find_user in Hu. eapply find_some_holds; eauto.
Qed.

Lemma wallet_withdraw_keeps_balance_witness :
  balance "alice"
    (fst (wallet_withdraw "alice" (Num (num 50)) (Some "alice@upi") None "w-1"
            "2024-01-01T00:00:00.000Z" (ledger [alice (num 100)] [] [] None)))
  = Some (num 100).
Proof.
  apply (proj2 (proj2 (proj2 (proj2 (proj2 (proj2 (proj2
    (wallet_withdraw_keeps_balance "alice" (Num (num 50)) (Some "alice@upi") None "w-1"
       "2024-01-01T00:00:00.000Z" (ledger [alice (num 100)] [] [] None)
       (request50 pending None) eq_refl)))))))).
Defined.

(** ** Voting market *)

Lemma vote_count_missing : vote_count undefined = num 1.
Proof. reflexivity. Qed.






(** ** Wager outcome engine: the odds walk *)

Lemma nor_weight (o : value) : nor (Number o) (num 0) = Fin (weight o).
Proof.
  unfold weight. destruct (nor_fin (Number o) (inject_Z 0)) as [q Hq].
  unfold num. rewrite Hq. reflexivity.
Qed.

Lemma running_sum_head (o : value) (rest : list value) :
  running_sum (o :: rest) 0 == weight o.
Proof. unfold running_sum. simpl. destruct rest; simpl; lra. Qed.

Lemma running_sum_tail (o : value) (rest : list value) (i : nat) :
  running_sum (o :: rest) (S i) == weight o + running_sum rest i.
Proof. unfold running_sum. simpl. lra. Qed.

Lemma chosen_index_ge (r : number) (odds : list value) :
  forall (k : nat) (c : number) (j : nat),
    chosen_index r odds k c = Some j -> (k <= j)%nat.
Proof.
  induction odds as [|o rest IH]; intros k c j; cbn [chosen_index]; [discriminate|].
  destruct (nle r (nadd c (nor (Number o) (num 0)))).
  - intros Hj. injection Hj as Hj. lia.
  - intros Hj. apply IH in Hj. lia.
Qed.

(** The loop, started at index [k] with the running sum [c], breaks at
    [k + i] exactly when [i] is the first index of the rest of the array at
    which the running sum reaches or exceeds [r]. *)
Lemma chosen_index_from (r : Q) (odds : list value) :
  forall (k : nat) (c : Q) (i : nat),
    chosen_index (Fin r) odds k (Fin c) = Some (k + i)%nat <->
    first_reaching_from c r odds i.
Proof.
  induction odds as [|o rest IH]; intros k c i.
  - simpl. split; [discriminate|]. intros [H _]. simpl in H. lia.
  - cbn [chosen_index]. rewrite nor_weight. cbn [nadd].
    destruct (nle (Fin r) (Fin (Qred (c + weight o)))) eqn:E.
    + apply nle_true_le in E. rewrite Qred_correct in E.
      split.
      * intros [= Hk]. assert (i = 0%nat) by lia. subst i.
        split; [simpl; lia|]. split; [rewrite running_sum_head; exact E|].
        intros j Hj. lia.
      * intros (_ & _ & Hlt). destruct i as [|i]; [f_equal; lia|].
        specialize (Hlt 0%nat ltac:(lia)). rewrite running_sum_head in Hlt. lra.
    + apply nle_false_lt in E. rewrite Qred_correct in E.
      destruct i as [|i].
      * split.
        -- intros H. exfalso. apply chosen_index_ge in H. lia.
        -- intros (_ & Hle & _). rewrite running_sum_head in Hle. lra.
      * replace (k + S i)%nat with (S k + i)%nat by lia.
        rewrite IH. unfold first_reaching_from. cbn [length].
        split.
        -- intros (Hlen & Hle & Hlt). split; [lia|]. split.
           ++ rewrite running_sum_tail. rewrite Qred_correct in Hle. lra.
           ++ intros [|j] Hj.
              ** rewrite running_sum_head. exact E.
              ** rewrite running_sum_tail. specialize (Hlt j ltac:(lia)).
                 rewrite Qred_correct in Hlt. lra.
        -- intros (Hlen & Hle & Hlt). split; [lia|]. split.
           ++ rewrite running_sum_tail in Hle. rewrite Qred_correct. lra.
           ++ intros j Hj. specialize (Hlt (S j) ltac:(lia)).
              rewrite running_sum_tail in Hlt. rewrite Qred_correct. lra.
Qed.

Lemma chosen_index_first (r : Q) (odds : list value) (i : nat) :
  chosen_index (Fin r) odds 0 (num 0) = Some i <-> first_reaching r odds i.
Proof.
  unfold num. rewrite (chosen_index_from r odds 0 (inject_Z 0) i).
  unfold first_reaching_from, first_reaching. unfold inject_Z.
  split; intros (Hlen & Hle & Hlt); (split; [exact Hlen|]); split.
  - lra.
  - intros j Hj. specialize (Hlt j Hj). lra.
  - lra.
  - intros j Hj. specialize (Hlt j Hj). lra.
Qed.

(** The multiplier the loop leaves is the one at the index where it breaks,
    and 0 when it runs to the end of [odds]. *)
Lemma odds_walk_chosen (r : number) (multipliers odds : list value) :
  forall (k : nat) (c : number),
    odds_walk r multipliers odds k c =
    match chosen_index r odds k c with
    | Some i => nor (Number (at_index multipliers i)) (num 0)
    | None => num 0
    end.
Proof.
  induction odds as [|o rest IH]; intros k c; simpl; [reflexivity|].
  destruct (nle r (nadd c (nor (Number o) (num 0)))); [reflexivity|apply IH].
Qed.





(** ** Wager outcome engine: the play *)

(** What the second [/api/play] handler does once its guards are passed. *)
Lemma play_secure_accepts (uid g : string) (rnd : Q) (feeUuid playUuid now : string)
    (d : Data) (cfg : GameConfig.t) (user : User.t) :
  g <> "" ->
  game_config g d = Some cfg ->
  GameConfig.enabled cfg = true ->
  find_user uid d = Some user ->
  nlt (User.credits user) (cfg_cost cfg) = false ->
  let cost := cfg_cost cfg in
  let fee := fee_of cost (cfg_feePercent cfg) in
  let effectiveStake := nsub cost fee in
  let multiplier := chosenMultiplier rnd cfg in
  let award := award_of effectiveStake multiplier in
  let user' := credit_if_positive award (debit cost user) in
  let r := play_secure uid (Some g) rnd feeUuid playUuid now d in
  snd r = Json (User.credits user',
                {| Play.id := playUuid; Play.userId := uid; Play.gameId := g;
                   Play.cost := cost; Play.fee := Num fee;
                   Play.effectiveStake := Num effectiveStake;
                   Play.multiplier := Num multiplier; Play.award := award;
                   Play.createdAt := now |}) /\
  balance uid (fst r) = Some (User.credits user') /\
  systemFees (fst r) =
    Some (or_empty (systemFees d) ++
          [{| Fee.id := feeUuid; Fee.gameId := g; Fee.fee := fee; Fee.collectedAt := now |}])%list.
Proof.
  intros Hg Hcfg Hen Hu Hc cost fee effectiveStake multiplier award user' r.
  assert (Hid : User.id user = uid).
  { apply is_user_id. unfold find_user in Hu. eapply find_some_holds; eauto. }
  assert (Hid' : User.id user' = uid).
  { unfold user', credit_if_positive. destruct (ngt award (num 0)); exact Hid. }
  assert (Hm : missing (Some g) = false).
  { simpl. apply String.eqb_neq. exact Hg. }
  assert (Hr : r =
    (set_users
       (replace_user user'
          (update_first (is_user uid) (fun u => credit_if_positive award (debit cost u)) (users d)))
       (set_gamePlays
          (Some (or_empty (gamePlays d) ++
                 [{| Play.id := playUuid; Play.userId := User.id user'; Play.gameId := g;
                     Play.cost := cost; Play.fee := Num fee;
                     Play.effectiveStake := Num effectiveStake;
                     Play.multiplier := Num multiplier; Play.award := award;
                     Play.createdAt := now |}])%list)
          (set_systemFees
             (Some (or_empty (systemFees d) ++
                    [{| Fee.id := feeUuid; Fee.gameId := g; Fee.fee := fee;
                        Fee.collectedAt := now |}])%list) d)),
     Json (User.credits user',
           {| Play.id := playUuid; Play.userId := User.id user'; Play.gameId := g;
              Play.cost := cost; Play.fee := Num fee;
              Play.effectiveStake := Num effectiveStake;
              Play.multiplier := Num multiplier; Play.award := award;
              Play.createdAt := now |}))).
  { subst r. unfold play_secure. rewrite Hm. cbn [str_or_empty].
    unfold game_config in Hcfg. rewrite Hcfg, Hen, Hu. cbn [negb]. rewrite Hc.
    reflexivity. }
  rewrite Hr. cbn [fst snd]. rewrite Hid'.
  split; [reflexivity|]. split; [|reflexivity].
  unfold balance, find_user. cbn [users set_users].
  unfold user'.
  rewrite (find_settled uid (fun u => credit_if_positive award (debit cost u)) user (users d)).
  - reflexivity.
  - intros u. unfold credit_if_positive. destruct (ngt award (num 0)); reflexivity.
  - exact Hu.
Qed.


(** The guards above are the only way to a successful answer. *)
Lemma play_secure_success_guards (uid : string) (gameId : option string) (rnd : Q)
    (feeUuid playUuid now : string) (d : Data) (b : number * Play.t) :
  snd (play_secure uid gameId rnd feeUuid playUuid now d) = Json b ->
  exists g cfg user,
    gameId = Some g /\ g <> "" /\ game_config g d = Some cfg /\
    GameConfig.enabled cfg = true /\ find_user uid d = Some user /\
    nlt (User.credits user) (cfg_cost cfg) = false.
Proof.
  unfold play_secure.
  destruct (missing gameId) eqn:Hm; [discriminate|].
  destruct gameId as [g|]; [|discriminate]. cbn [str_or_empty].
  destruct (gameConfigs d ≫= (fun cs => cs !! g)) as [cfg|] eqn:Hcfg; [|discriminate].
  destruct (GameConfig.enabled cfg) eqn:Hen; [|discriminate]. cbn [negb].
  destruct (find_user uid d) as [user|] eqn:Hu; [|discriminate].
  destruct (nlt (User.credits user) (cfg_cost cfg)) eqn:Hc; [discriminate|].
  intros _. exists g, cfg, user. repeat split; auto.
  simpl in Hm. apply String.eqb_neq. exact Hm.
Qed.





(** ** The two handlers of /api/play *)

Lemma coin_multiplier (rnd : Q) :
  chosenMultiplier rnd game_coin = if Qle_bool rnd (1 # 2) then num 2 else num 0.
Proof.
  unfold chosenMultiplier, game_coin. cbn [GameConfig.odds GameConfig.payoutMultipliers or_empty odds_walk].
  replace (nadd (num 0) (nor (Number (Num (Fin (1 # 2)))) (num 0))) with (Fin (1 # 2))
    by reflexivity.
  cbn [nle]. destruct (Qle_bool rnd (1 # 2)); reflexivity.
Qed.

(** C5: the two handlers registered for POST /api/play are not equivalent.
    On a ledger where alice holds 1000 credits and the game "g-1" costs 100
    with a fee of 10 percent and doubles the stake with probability one
    half, the request {gameId: "g-1", cost: 100, result: 50} is answered by
    the first handler with the balance 950 and a play record without fee,
    and by the second, whatever the sample, with the balance 1080 or 900
    and a play record with the fee 10. *)
Theorem play_handlers_differ :
  exists (d : Data) (uid : string) (body : PlayBody),
  forall (rnd : Q) (uuid1 uuid2 uuid3 now : string),
  exists (b1 b2 : number) (p1 p2 : Play.t),
    snd (play_simple uid body uuid1 now d) = Json (b1, p1) /\
    snd (play_secure uid (gameId body) rnd uuid2 uuid3 now d) = Json (b2, p2) /\
    balance uid (fst (play_simple uid body uuid1 now d)) = Some b1 /\
    balance uid (fst (play_secure uid (gameId body) rnd uuid2 uuid3 now d)) = Some b2 /\
    b1 = num 950 /\
    (b2 = num 1080 \/ b2 = num 900) /\
    ~ same_number b1 b2 /\
    Play.fee p1 = undefined /\
    Play.fee p2 = Num (num 10) /\
    ~ same_number (Play.award p1) (Play.award p2).
Proof.
  exists (casino game_coin), "alice", body_coin.
  intros rnd uuid1 uuid2 uuid3 now.
  destruct (play_secure_accepts "alice" "g-1" rnd uuid2 uuid3 now (casino game_coin)
              game_coin (alice (num 1000)))
    as (Hr & Hb & _); try reflexivity; [discriminate|].
  cbn [gameId body_coin].
  rewrite Hr, Hb. rewrite coin_multiplier.
  exists (num 950).
  destruct (Qle_bool rnd (1 # 2)).
  - exists (num 1080). eexists. eexists.
    split; [reflexivity|]. split; [reflexivity|]. split; [reflexivity|].
    split; [reflexivity|]. split; [reflexivity|]. split; [left; reflexivity|].
    split; [vm_compute; discriminate|]. split; [reflexivity|]. split; [reflexivity|].
    vm_compute. discriminate.
  - exists (num 900). eexists. eexists.
    split; [reflexivity|]. split; [reflexivity|]. split; [reflexivity|].
    split; [reflexivity|]. split; [reflexivity|]. split; [right; reflexivity|].
    split; [vm_compute; discriminate|]. split; [reflexivity|]. split; [reflexivity|].
    vm_compute. discriminate.
Qed.

(** ** Game configuration *)

Lemma admin_update_game_found (gameId : string) (payload : Patch) (d : Data)
    (cur : GameConfig.t) :
  game_config gameId d = Some cur ->
  admin_update_game gameId payload d =
    (set_gameConfigs (Some (<[gameId := patched payload cur]> (default ∅ (gameConfigs d)))) d,
     Json (patched payload cur)).
Proof.
  unfold game_config, admin_update_game.
  destruct (gameConfigs d) as [cs|]; simpl; [|discriminate].
  intros ->. reflexivity.
Qed.

(** The update has one error answer, 404, for a game that has no config. *)
Lemma admin_update_game_error (gameId : string) (payload : Patch) (d : Data) :
  is_error (snd (admin_update_game gameId payload d)) = true ->
  game_config gameId d = None /\
  admin_update_game gameId payload d = (d, Error 404 "Game not found").
Proof.
  unfold game_config, admin_update_game.
  destruct (gameConfigs d) as [cs|]; simpl.
  - destruct (cs !! gameId); simpl; [discriminate|]. intros _. split; reflexivity.
  - rewrite lookup_empty. intros _. split; reflexivity.
Qed.

(** At play time an outcome without a multiplier pays nothing. *)
Lemma missing_multiplier_pays_nothing (rnd : Q) (cfg : GameConfig.t) (i : nat) :
  first_reaching rnd (or_empty (GameConfig.odds cfg)) i ->
  (length (or_empty (GameConfig.payoutMultipliers cfg)) <= i)%nat ->
  chosenMultiplier rnd cfg = num 0.
Proof.
  intros Hi Hlen. unfold chosenMultiplier. rewrite odds_walk_chosen.
  apply chosen_index_first in Hi. rewrite Hi.
  unfold at_index. rewrite nth_overflow by exact Hlen. reflexivity.
Qed.

(** C8, counterexample: the game has one outcome and one multiplier; the
    update of the odds to two outcomes is answered with the config, which is
    stored with two odds and one multiplier. *)
Lemma update_mismatch_counterexample :
  snd (admin_update_game "g-1" patch_two_odds (casino game_coin)) = Json game_coin_two_odds /\
  game_config "g-1" (fst (admin_update_game "g-1" patch_two_odds (casino game_coin)))
    = Some game_coin_two_odds /\
  length (or_empty (GameConfig.odds game_coin_two_odds)) = 2%nat /\
  length (or_empty (GameConfig.payoutMultipliers game_coin_two_odds)) = 1%nat /\
  is_error (snd (admin_update_game "g-1" patch_two_odds (casino game_coin))) = false.
Proof.
  split; [vm_compute; reflexivity|].
  split; [vm_compute; reflexivity|].
  repeat split.
Qed.

(** C8, as the code has it: the update compares no lengths.  For a game
    that has a config, every body is answered with the config after the
    partial update, and this config is the one stored: the odds and the
    multipliers of the body replace the stored ones, each on its own,
    whatever their lengths, and a field the body leaves out keeps its
    value.  The accounts are not touched. *)
Theorem update_stores_any_patch (gameId : string) (payload : Patch) (d : Data)
    (cur : GameConfig.t) :
  game_config gameId d = Some cur ->
  let r := admin_update_game gameId payload d in
  snd r = Json (patched payload cur) /\
  game_config gameId (fst r) = Some (patched payload cur) /\
  (forall o, p_odds payload = Some o -> GameConfig.odds (patched payload cur) = Some o) /\
  (forall m, p_payoutMultipliers payload = Some m ->
     GameConfig.payoutMultipliers (patched payload cur) = Some m) /\
  (p_odds payload = None -> GameConfig.odds (patched payload cur) = GameConfig.odds cur) /\
  (p_payoutMultipliers payload = None ->
     GameConfig.payoutMultipliers (patched payload cur) = GameConfig.payoutMultipliers cur) /\
  users (fst r) = users d.
Proof.
  intros Hcur r. subst r. rewrite (admin_update_game_found gameId payload d cur Hcur).
  cbn [fst snd]. split; [reflexivity|]. split.
  - unfold game_config. cbn [gameConfigs set_gameConfigs]. simpl.
    apply lookup_insert_eq.
  - unfold patched. cbn.
    repeat split.
    + intros o ->. reflexivity.
    + intros m ->. reflexivity.
    + intros ->. reflexivity.
    + intros ->. reflexivity.
Qed.

Lemma update_stores_any_patch_witness :
  game_config "g-1" (fst (admin_update_game "g-1" patch_two_odds (casino game_coin)))
  = Some (patched patch_two_odds game_coin).
Proof.
  apply (proj1 (proj2
    (update_stores_any_patch "g-1" patch_two_odds (casino game_coin) game_coin eq_refl))).
Defined.

(** ** The guarded debits *)

(** The vote and the two plays debit behind the guard [credits < amount]:
    from a balance that is not negative they leave one that is not
    negative.  The approval of a withdrawal has no such guard. *)

Lemma vote_count_fin (amount : value) : exists q, vote_count amount = Fin q.
Proof.
  unfold vote_count. destruct (nor_fin (Number amount) (inject_Z 1)) as [q Hq].
  unfold num. rewrite Hq. simpl. destruct (Qle_bool (inject_Z 1) q); eauto.
Qed.

Lemma settle_nonneg (c : Q) (award : number) (user : User.t) :
  nonneg (User.credits user) ->
  nlt (User.credits user) (Fin c) = false ->
  nonneg (User.credits (credit_if_positive award (debit (Fin c) user))).
Proof.
  destruct user as [uid em ro cr nm]. cbn [User.credits].
  intros Hnn Hc. destruct cr as [b|]; [|destruct Hnn].
  pose proof (guarded_debit_nonneg b c Hc) as Hd.
  unfold credit_if_positive. destruct (ngt award (num 0)) eqn:Haw.
  - destruct award as [a|]; [|discriminate].
    apply nlt_true_lt in Haw. unfold inject_Z in Haw.
    simpl in Hd |- *. rewrite !Qred_correct in *. lra.
  - exact Hd.
Qed.

Lemma find_settled_play (uid : string) (c award : number) (user : User.t)
    (us : list User.t) :
  find (is_user uid) us = Some user ->
  find (is_user uid)
    (replace_user (credit_if_positive award (debit c user))
       (update_first (is_user uid) (fun u => credit_if_positive award (debit c u)) us))
  = Some (credit_if_positive award (debit c user)).
Proof.
  intros Hu.
  apply (find_settled uid (fun u => credit_if_positive award (debit c u)) user us); [|exact Hu].
  intros u. unfold credit_if_positive. destruct (ngt award (num 0)); reflexivity.
Qed.

Lemma vote_keeps_nonneg (uid cid photoId : string) (amount : value) (d : Data)
    (user : User.t) (b : number) :
  find_user uid d = Some user ->
  nonneg (User.credits user) ->
  balance uid (fst (vote uid cid photoId amount d)) = Some b ->
  nonneg b.
Proof.
  intros Hu Hnn. unfold vote.
  destruct (find (is_photo photoId cid) (photos d)) as [photo|].
  2:{ cbn [fst]. unfold balance. rewrite Hu. intros [= <-]. exact Hnn. }
  rewrite Hu. destruct (vote_count_fin amount) as [q Hq]. rewrite Hq.
  assert (Ht : nmul (Fin q) costPerVote = Fin (Qred (q * inject_Z 10))) by reflexivity.
  rewrite Ht.
  destruct (nlt (User.credits user) (Fin (Qred (q * inject_Z 10)))) eqn:Hc.
  - cbn [fst]. unfold balance. rewrite Hu. intros [= <-]. exact Hnn.
  - cbn [fst]. unfold balance, find_user. cbn [users set_users].
    rewrite (find_settled uid (debit (Fin (Qred (q * inject_Z 10)))) user (users d)); auto.
    intros [= <-]. destruct user as [uid' em ro cr nm]. cbn [User.credits] in *.
    destruct cr as [c|]; [|destruct Hnn].
    apply guarded_debit_nonneg. exact Hc.
Qed.

Lemma play_secure_keeps_nonneg (uid : string) (gameId : option string) (rnd : Q)
    (feeUuid playUuid now : string) (d : Data) (user : User.t) (b : number) :
  find_user uid d = Some user ->
  nonneg (User.credits user) ->
  balance uid (fst (play_secure uid gameId rnd feeUuid playUuid now d)) = Some b ->
  nonneg b.
Proof.
  intros Hu Hnn.
  assert (Hsame : balance uid d = Some b -> nonneg b).
  { unfold balance. rewrite Hu. intros [= <-]. exact Hnn. }
  unfold play_secure.
  destruct (missing gameId); [exact Hsame|].
  destruct (gameConfigs d ≫= (fun cs => cs !! str_or_empty gameId)) as [cfg|]; [|exact Hsame].
  destruct (negb (GameConfig.enabled cfg)); [exact Hsame|].
  rewrite Hu.
  destruct (nor_fin (Number (GameConfig.cost cfg)) (inject_Z 0)) as [c Hcq].
  assert (Hcost : cfg_cost cfg = Fin c) by exact Hcq.
  rewrite Hcost.
  destruct (nlt (User.credits user) (Fin c)) eqn:Hc; [exact Hsame|].
  cbn [fst]. unfold balance, find_user. cbn [users set_users].
  rewrite (find_settled_play uid _ _ user (users d) Hu).
  intros [= <-]. apply settle_nonneg; assumption.
Qed.

Lemma play_simple_keeps_nonneg (uid : string) (g : option string) (c : Q) (res : value)
    (uuid now : string) (d : Data) (user : User.t) (b : number) :
  find_user uid d = Some user ->
  nonneg (User.credits user) ->
  balance uid
    (fst (play_simple uid {| gameId := g; cost := Num (Fin c); result := res |} uuid now d))
  = Some b ->
  nonneg b.
Proof.
  intros Hu Hnn.
  assert (Hsame : balance uid d = Some b -> nonneg b).
  { unfold balance. rewrite Hu. intros [= <-]. exact Hnn. }
  unfold play_simple. cbn [gameId cost result is_number Number negb].
  destruct (missing g || false); [exact Hsame|].
  rewrite Hu.
  destruct (nlt (User.credits user) (Fin c)) eqn:Hc; [exact Hsame|].
  cbn [fst]. unfold balance, find_user. cbn [users set_users].
  rewrite (find_settled_play uid _ _ user (users d) Hu).
  intros [= <-]. apply settle_nonneg; assumption.
Qed.

(** * Properties of the other handlers, and of the handlers together *)

(** ** Arrays: what an update leaves alone *)

Lemma find_update_first_other {A : Type} (p q : A -> bool) (f : A -> A) (l : list A) :
  (forall x, q (f x) = q x) ->
  (forall x, p x = true -> q x = false) ->
  find q (update_first p f l) = find q l.
Proof.
  intros Hf Hpq. induction l as [|x l IH]; simpl; [reflexivity|].
  destruct (p x) eqn:Hx; simpl.
  - rewrite Hf, (Hpq x Hx). reflexivity.
  - destruct (q x); [reflexivity|exact IH].
Qed.

Lemma is_user_other (uid uid' : string) (u : User.t) :
  uid <> uid' -> is_user uid u = true -> is_user uid' u = false.
Proof.
  intros Hne Hu. apply is_user_id in Hu. unfold is_user. rewrite Hu.
  apply String.eqb_neq. exact Hne.
Qed.



(** ** No partial writes *)

(** X1: an answer that is not a success leaves the ledger as it was, for
    every handler that writes. *)
Theorem failed_request_writes_nothing (d : Data) :
  (forall email name uuid token,
     succeeded (snd (signup email name uuid token d)) = false ->
     fst (signup email name uuid token d) = d) /\
  (forall uid amount,
     succeeded (snd (wallet_deposit uid amount d)) = false ->
     fst (wallet_deposit uid amount d) = d) /\
  (forall uid amount upi utr uuid now,
     succeeded (snd (wallet_withdraw uid amount upi utr uuid now d)) = false ->
     fst (wallet_withdraw uid amount upi utr uuid now d) = d) /\
  (forall id action now,
     succeeded (snd (admin_withdraw id action now d)) = false ->
     fst (admin_withdraw id action now d) = d) /\
  (forall uid cid photoId amount,
     succeeded (snd (vote uid cid photoId amount d)) = false ->
     fst (vote uid cid photoId amount d) = d) /\
  (forall id,
     succeeded (snd (admin_delete_photo id d)) = false ->
     fst (admin_delete_photo id d) = d) /\
  (forall uid body uuid now,
     succeeded (snd (play_simple uid body uuid now d)) = false ->
     fst (play_simple uid body uuid now d) = d) /\
  (forall uid gameId rnd feeUuid playUuid now,
     succeeded (snd (play_secure uid gameId rnd feeUuid playUuid now d)) = false ->
     fst (play_secure uid gameId rnd feeUuid playUuid now d) = d) /\
  (forall gameId payload,
     succeeded (snd (admin_update_game gameId payload d)) = false ->
     fst (admin_update_game gameId payload d) = d).
Proof.
  repeat split.
  - intros email name uuid token. unfold signup.
    destruct (find (has_email email) (users d)); [reflexivity|discriminate].
  - intros uid amount. unfold wallet_deposit.
    destruct (nle (Number amount) (num 0)); [reflexivity|].
    destruct (find_user uid d); [discriminate|reflexivity].
  - intros uid amount upi utr uuid now. unfold wallet_withdraw.
    destruct (nle (Number amount) (num 0)); [reflexivity|].
    destruct (find_user uid d) as [user|]; [|reflexivity].
    destruct (nlt (User.credits user) (Number amount)); [reflexivity|discriminate].
  - intros id action now. unfold admin_withdraw.
    destruct (find (is_withdraw id) (withdraws d)) as [w|]; [|reflexivity].
    destruct (negb (existsb (String.eqb action) ["approve"; "reject"])); [reflexivity|].
    destruct (String.eqb action "approve"); [|discriminate].
    cbn iota. destruct (find_user _ _); discriminate.
  - intros uid cid photoId amount. unfold vote.
    destruct (find (is_photo photoId cid) (photos d)) as [photo|]; [|reflexivity].
    destruct (find_user uid d) as [user|]; [|reflexivity].
    destruct (nlt (User.credits user) _); [reflexivity|discriminate].
  - intros id. unfold admin_delete_photo.
    destruct (find (has_photo_id id) (photos d)); [discriminate|reflexivity].
  - intros uid body uuid now. unfold play_simple.
    destruct (missing (gameId body) || negb (is_number (cost body))); [reflexivity|].
    destruct (find_user uid d) as [user|]; [|reflexivity].
    destruct (nlt (User.credits user) _); [reflexivity|discriminate].
  - intros uid gameId rnd feeUuid playUuid now. unfold play_secure.
    destruct (missing gameId); [reflexivity|].
    destruct (gameConfigs d ≫= _) as [cfg|]; [|reflexivity].
    destruct (negb (GameConfig.enabled cfg)); [reflexivity|].
    destruct (find_user uid d) as [user|]; [|reflexivity].
    destruct (nlt (User.credits user) _); [reflexivity|discriminate].
  - intros gameId payload. unfold admin_update_game.
    destruct (default ∅ (gameConfigs d) !! gameId); [discriminate|reflexivity].
Qed.

Lemma failed_request_writes_nothing_witness :
  fst (vote "alice" "challenge-1" "p-1" (Num (num 1)) ledger_poor) = ledger_poor.
Proof.
  apply (proj1 (proj2 (proj2 (proj2 (proj2 (failed_request_writes_nothing ledger_poor)))))
           "alice" "challenge-1" "p-1" (Num (num 1)) eq_refl).
Defined.

(** ** Deposit *)



(** ** No negative balance, except through the approval *)

Lemma Forall_update_first {A : Type} (P : A -> Prop) (p : A -> bool) (f : A -> A)
    (l : list A) (x : A) :
  Forall P l -> find p l = Some x -> P (f x) -> Forall P (update_first p f l).
Proof.
  intros Hl. induction Hl as [|y l Hy Hl IH]; simpl; [discriminate|].
  destruct (p y).
  - intros [= ->] Hfx. constructor; assumption.
  - intros Hf Hfx. constructor; auto.
Qed.

Lemma Forall_replace_user (P : User.t -> Prop) (user' : User.t) (us : list User.t) :
  Forall P us -> P user' -> Forall P (replace_user user' us).
Proof.
  intros Hl Hu. induction Hl as [|y l Hy Hl IH]; simpl; constructor; auto.
  destruct (String.eqb (User.id y) (User.id user')); assumption.
Qed.

Lemma Forall_find {A : Type} (P : A -> Prop) (p : A -> bool) (l : list A) (x : A) :
  Forall P l -> find p l = Some x -> P x.
Proof.
  intros Hl Hf. apply find_some in Hf. destruct Hf as [Hin _].
  rewrite Forall_forall in Hl. apply Hl. apply list_elem_of_In. exact Hin.
Qed.

Lemma solvent_settled (uid : string) (settle : User.t -> User.t) (user : User.t) (d d0 : Data) :
  solvent d ->
  find_user uid d = Some user ->
  nonneg (User.credits (settle user)) ->
  users d0 = replace_user (settle user) (update_first (is_user uid) settle (users d)) ->
  solvent d0.
Proof.
  unfold solvent. intros Hs Hu Hnn ->.
  apply Forall_replace_user; [|exact Hnn].
  apply (Forall_update_first _ _ _ _ user); assumption.
Qed.

(** X3: the handlers other than the approval keep the balances from
    becoming negative.  From a ledger without a negative balance, a signup,
    a deposit of a number, a withdrawal request, the rejection of a request,
    a vote, the removal of a photo, a play of either handler (for the first
    one with a number as cost) and a config update all lead to a ledger
    without a negative balance. *)
Theorem solvent_preserved (d : Data) :
  solvent d ->
  (forall email name uuid token, solvent (fst (signup email name uuid token d))) /\
  (forall uid q, solvent (fst (wallet_deposit uid (Num (Fin q)) d))) /\
  (forall uid amount upi utr uuid now,
     solvent (fst (wallet_withdraw uid amount upi utr uuid now d))) /\
  (forall id now, solvent (fst (admin_withdraw id "reject" now d))) /\
  (forall uid cid photoId amount, solvent (fst (vote uid cid photoId amount d))) /\
  (forall id, solvent (fst (admin_delete_photo id d))) /\
  (forall uid g c res uuid now,
     solvent (fst (play_simple uid {| gameId := g; cost := Num (Fin c); result := res |}
                     uuid now d))) /\
  (forall uid gameId rnd feeUuid playUuid now,
     solvent (fst (play_secure uid gameId rnd feeUuid playUuid now d))) /\
  (forall gameId payload, solvent (fst (admin_update_game gameId payload d))).
Proof.
  intros Hs. repeat split.
  - intros email name uuid token. unfold signup.
    destruct (find (has_email email) (users d)); [exact Hs|].
    unfold solvent. cbn [fst users set_users].
    apply Forall_app. split; [exact Hs|].
    repeat constructor. simpl. discriminate.
  - intros uid q. unfold wallet_deposit. cbn [Number].
    destruct (nle (Fin q) (num 0)) eqn:Ha; [exact Hs|].
    destruct (find_user uid d) as [user|] eqn:Hu; [|exact Hs].
    unfold solvent. cbn [fst users set_users].
    apply (Forall_update_first _ _ _ _ user); [exact Hs|exact Hu|].
    pose proof (Forall_find _ _ _ _ Hs Hu) as Hnn. cbn beta in Hnn.
    apply nle_false_lt in Ha. unfold inject_Z in Ha.
    destruct user as [i e r cr n]. cbn [User.credits] in *.
    destruct cr as [b|]; [|destruct Hnn].
    simpl in Hnn |- *. rewrite Qred_correct. lra.
  - intros uid amount upi utr uuid now. unfold wallet_withdraw.
    destruct (nle (Number amount) (num 0)); [exact Hs|].
    destruct (find_user uid d) as [user|]; [|exact Hs].
    destruct (nlt (User.credits user) (Number amount)); exact Hs.
  - intros id now. unfold admin_withdraw.
    destruct (find (is_withdraw id) (withdraws d)); exact Hs.
  - intros uid cid photoId amount. unfold vote.
    destruct (find (is_photo photoId cid) (photos d)) as [photo|]; [|exact Hs].
    destruct (find_user uid d) as [user|] eqn:Hu; [|exact Hs].
    destruct (vote_count_fin amount) as [q Hq]. rewrite Hq.
    assert (Ht : nmul (Fin q) costPerVote = Fin (Qred (q * inject_Z 10))) by reflexivity.
    rewrite Ht.
    destruct (nlt (User.credits user) (Fin (Qred (q * inject_Z 10)))) eqn:Hc; [exact Hs|].
    cbn [fst].
    apply (solvent_settled uid (debit (Fin (Qred (q * inject_Z 10)))) user d);
      [exact Hs|exact Hu| |reflexivity].
    pose proof (Forall_find _ _ _ _ Hs Hu) as Hnn. cbn beta in Hnn.
    destruct user as [i e r cr n]. cbn [User.credits] in *.
    destruct cr as [b|]; [|destruct Hnn].
    apply guarded_debit_nonneg. exact Hc.
  - intros id. unfold admin_delete_photo.
    destruct (find (has_photo_id id) (photos d)); exact Hs.
  - intros uid g c res uuid now. unfold play_simple.
    cbn [gameId cost result is_number Number negb].
    destruct (missing g || false); [exact Hs|].
    destruct (find_user uid d) as [user|] eqn:Hu; [|exact Hs].
    destruct (nlt (User.credits user) (Fin c)) eqn:Hc; [exact Hs|].
    cbn [fst].
    apply (solvent_settled uid
             (fun u => credit_if_positive (nor (Number res) (num 0)) (debit (Fin c) u)) user d);
      [exact Hs|exact Hu| |reflexivity].
    apply settle_nonneg; [|exact Hc].
    exact (Forall_find _ _ _ _ Hs Hu).
  - intros uid gameId rnd feeUuid playUuid now. unfold play_secure.
    destruct (missing gameId); [exact Hs|].
    destruct (gameConfigs d ≫= _) as [cfg|]; [|exact Hs].
    destruct (negb (GameConfig.enabled cfg)); [exact Hs|].
    destruct (find_user uid d) as [user|] eqn:Hu; [|exact Hs].
    destruct (nor_fin (Number (GameConfig.cost cfg)) (inject_Z 0)) as [c Hcq].
    assert (Hcost : cfg_cost cfg = Fin c) by exact Hcq.
    rewrite Hcost.
    destruct (nlt (User.credits user) (Fin c)) eqn:Hc; [exact Hs|].
    cbn [fst].
    apply (solvent_settled uid
             (fun u => credit_if_positive
                         (award_of (nsub (Fin c) (fee_of (Fin c) (cfg_feePercent cfg)))
                            (chosenMultiplier rnd cfg))
                         (debit (Fin c) u)) user d);
      [exact Hs|exact Hu| |reflexivity].
    apply settle_nonneg; [|exact Hc].
    exact (Forall_find _ _ _ _ Hs Hu).
  - intros gameId payload. unfold admin_update_game.
    destruct (default ∅ (gameConfigs d) !! gameId); exact Hs.
Qed.

Lemma solvent_preserved_witness :
  solvent (fst (vote "alice" "challenge-1" "p-1" (Num (num 3))
                  (ledger [alice (num 100)] [] [sunset (Num (num 3))] None))).
Proof.
  apply (solvent_preserved (ledger [alice (num 100)] [] [sunset (Num (num 3))] None)).
  repeat constructor. simpl. discriminate.
Defined.

(** ** The first play handler *)






(** ** The second play handler *)






(** ** Fees *)




Lemma played_fees_app (ps qs : list Play.t) :
  played_fees (ps ++ qs) = (played_fees ps ++ played_fees qs)%list.
Proof.
  induction ps as [|p ps IH]; simpl; [reflexivity|].
  destruct (Play.fee p); simpl; congruence.
Qed.

Lemma fees_reconciled_same (d d' : Data) :
  gamePlays d' = gamePlays d -> systemFees d' = systemFees d ->
  fees_reconciled d -> fees_reconciled d'.
Proof. unfold fees_reconciled. intros -> ->. trivial. Qed.

(** X9: the fee records and the play records stay reconciled.  When the
    fee records list, game by game and in order, the fees of the plays that
    record one, they still do after any request: a play of the second
    handler appends its fee to both, a play of the first handler appends a
    play without fee, and the other handlers touch neither. *)
Theorem fees_stay_reconciled (d : Data) :
  fees_reconciled d ->
  (forall uid gameId rnd feeUuid playUuid now,
     fees_reconciled (fst (play_secure uid gameId rnd feeUuid playUuid now d))) /\
  (forall uid body uuid now, fees_reconciled (fst (play_simple uid body uuid now d))) /\
  (forall email name uuid token, fees_reconciled (fst (signup email name uuid token d))) /\
  (forall uid amount, fees_reconciled (fst (wallet_deposit uid amount d))) /\
  (forall uid amount upi utr uuid now,
     fees_reconciled (fst (wallet_withdraw uid amount upi utr uuid now d))) /\
  (forall id action now, fees_reconciled (fst (admin_withdraw id action now d))) /\
  (forall uid cid photoId amount, fees_reconciled (fst (vote uid cid photoId amount d))) /\
  (forall id, fees_reconciled (fst (admin_delete_photo id d))) /\
  (forall gameId payload, fees_reconciled (fst (admin_update_game gameId payload d))).
Proof.
  intros Hr. repeat split.
  - intros uid gameId rnd feeUuid playUuid now. unfold play_secure.
    destruct (missing gameId); [exact Hr|].
    destruct (gameConfigs d ≫= _) as [cfg|]; [|exact Hr].
    destruct (negb (GameConfig.enabled cfg)); [exact Hr|].
    destruct (find_user uid d) as [user|]; [|exact Hr].
    destruct (nlt (User.credits user) (cfg_cost cfg)); [exact Hr|].
    unfold fees_reconciled in *. cbn [fst gamePlays systemFees set_users set_gamePlays
                                       set_systemFees or_empty].
    unfold collected_fees. rewrite map_app, played_fees_app.
    fold (collected_fees (or_empty (systemFees d))). rewrite Hr. reflexivity.
  - intros uid body uuid now. unfold play_simple.
    destruct (missing (gameId body) || negb (is_number (cost body))); [exact Hr|].
    destruct (find_user uid d) as [user|]; [|exact Hr].
    destruct (nlt (User.credits user) (Number (cost body))); [exact Hr|].
    unfold fees_reconciled in *. cbn [fst gamePlays systemFees set_users set_gamePlays
                                       set_games or_empty].
    rewrite played_fees_app. simpl. rewrite app_nil_r. exact Hr.
  - intros email name uuid token. apply (fees_reconciled_same d); [| |exact Hr];
      unfold signup; destruct (find (has_email email) (users d)); reflexivity.
  - intros uid amount. apply (fees_reconciled_same d); [| |exact Hr];
      unfold wallet_deposit; destruct (nle (Number amount) (num 0)); try reflexivity;
      destruct (find_user uid d); reflexivity.
  - intros uid amount upi utr uuid now. apply (fees_reconciled_same d); [| |exact Hr];
      unfold wallet_withdraw; destruct (nle (Number amount) (num 0)); try reflexivity;
      destruct (find_user uid d) as [user|]; try reflexivity;
      destruct (nlt (User.credits user) (Number amount)); reflexivity.
  - intros id action now. apply (fees_reconciled_same d); [| |exact Hr];
      unfold admin_withdraw; destruct (find (is_withdraw id) (withdraws d)); try reflexivity;
      destruct (negb (existsb (String.eqb action) ["approve"; "reject"])); try reflexivity;
      destruct (String.eqb action "approve"); try reflexivity;
      cbn iota; destruct (find_user _ _); reflexivity.
  - intros uid cid photoId amount. apply (fees_reconciled_same d); [| |exact Hr];
      unfold vote; destruct (find (is_photo photoId cid) (photos d)); try reflexivity;
      destruct (find_user uid d) as [user|]; try reflexivity;
      destruct (nlt (User.credits user) _); reflexivity.
  - intros id. apply (fees_reconciled_same d); [| |exact Hr];
      unfold admin_delete_photo; destruct (find (has_photo_id id) (photos d)); reflexivity.
  - intros gameId payload. apply (fees_reconciled_same d); [| |exact Hr];
      unfold admin_update_game; destruct (default ∅ (gameConfigs d) !! gameId); reflexivity.
Qed.

Lemma fees_stay_reconciled_witness :
  fees_reconciled
    (fst (play_secure "alice" (Some "g-1") (1 # 4) "f-1" "pl-1" "2024-01-01T00:00:00.000Z"
            (casino game_coin))).
Proof.
  apply (fees_stay_reconciled (casino game_coin)). reflexivity.
Defined.

(** ** More on the odds walk *)





(** X11: the multiplier of a play is never [NaN]: it is 0 or the number of
    one of the configured multipliers. *)
Theorem chosen_multiplier_configured (rnd : Q) (cfg : GameConfig.t) :
  (exists q, chosenMultiplier rnd cfg = Fin q) /\
  (chosenMultiplier rnd cfg = num 0 \/
   exists v, In v (or_empty (GameConfig.payoutMultipliers cfg)) /\
             Number v = chosenMultiplier rnd cfg).
Proof.
  unfold chosenMultiplier. rewrite odds_walk_chosen.
  destruct (chosen_index _ _ _ _) as [i|]; [|split; [eexists; reflexivity|left; reflexivity]].
  set (m := or_empty (GameConfig.payoutMultipliers cfg)).
  split; [apply nor_fin|].
  unfold nor. destruct (truthy (Number (at_index m i))) eqn:Ht; [|left; reflexivity].
  right. exists (at_index m i). split; [|reflexivity].
  unfold at_index in *.
  destruct (Nat.lt_ge_cases i (length m)) as [Hlt|Hge].
  - apply nth_In. exact Hlt.
  - rewrite nth_overflow in Ht by exact Hge. discriminate.
Qed.

(** ** A request and its decision *)




(** X13: a request reserves nothing.  After a request that was accepted,
    the same account can ask for the same amount again, under any new id,
    and is accepted again: both requests are pending, for the full amount
    each. *)
Theorem request_reserves_nothing (uid : string) (amount : value) (upi utr : option string)
    (uuid now : string) (d : Data) (w : Withdraw.t) :
  snd (wallet_withdraw uid amount upi utr uuid now d) = Json w ->
  forall upi' utr' uuid' now',
    let d1 := fst (wallet_withdraw uid amount upi utr uuid now d) in
    exists w',
      wallet_withdraw uid amount upi' utr' uuid' now' d1
      = (set_withdraws (withdraws d ++ [w; w'])%list d, Json w') /\
      Withdraw.status w = pending /\
      Withdraw.status w' = pending /\
      Withdraw.amount w' = Withdraw.amount w.
Proof.
  unfold wallet_withdraw.
  destruct (nle (Number amount) (num 0)) eqn:Ha; [discriminate|].
  destruct (find_user uid d) as [user|] eqn:Hu; [|discriminate].
  destruct (nlt (User.credits user) (Number amount)) eqn:Hc; [discriminate|].
  cbn [fst snd]. intros [= <-] upi' utr' uuid' now'. cbv zeta.
  assert (Hu1 : forall ws, find_user uid (set_withdraws ws d) = Some user) by (intros; exact Hu).
  rewrite Hu1, Hc.
  exists {| Withdraw.id := uuid'; Withdraw.userId := User.id user;
            Withdraw.amount := Number amount;
            Withdraw.upi := str_or_empty upi'; Withdraw.utr := str_or_empty utr';
            Withdraw.status := pending; Withdraw.createdAt := now';
            Withdraw.processedAt := None |}.
  split; [|repeat split].
  unfold set_withdraws. cbn [users withdraws games photos gameConfigs gamePlays systemFees].
  rewrite <- app_assoc. reflexivity.
Qed.

Lemma request_reserves_nothing_witness :
  length (withdraws
    (fst (wallet_withdraw "alice" (Num (num 30)) None None "w-3" "2024-01-03T00:00:00.000Z"
            (fst (wallet_withdraw "alice" (Num (num 30)) None None "w-2"
                    "2024-01-02T00:00:00.000Z" ledger_short))))) = 3%nat.
Proof.
  destruct (request_reserves_nothing "alice" (Num (num 30)) None None "w-2"
              "2024-01-02T00:00:00.000Z" ledger_short _ eq_refl
              None None "w-3" "2024-01-03T00:00:00.000Z") as (w' & Hr & _).
  rewrite Hr. reflexivity.
Defined.

(** ** Game configuration: more on the update *)

(** X14: the update of a game touches the config of this game only: the
    config of every other game, the accounts, the requests, the photos, the
    plays and the fee records are left as they were. *)
Theorem update_frame (gameId : string) (payload : Patch) (d : Data) :
  let d' := fst (admin_update_game gameId payload d) in
  (forall g, g <> gameId -> game_config g d' = game_config g d) /\
  users d' = users d /\
  withdraws d' = withdraws d /\
  photos d' = photos d /\
  gamePlays d' = gamePlays d /\
  systemFees d' = systemFees d.
Proof.
  unfold admin_update_game.
  destruct (default ∅ (gameConfigs d) !! gameId) as [cur|] eqn:Hcur;
    cbn [fst]; (split; [|repeat split]).
  - intros g Hne. unfold game_config. cbn [gameConfigs set_gameConfigs]. simpl.
    rewrite lookup_insert_ne by congruence.
    destruct (gameConfigs d) as [cs|]; simpl; [reflexivity|apply lookup_empty].
  - intros g _. reflexivity.
Qed.

Lemma update_frame_witness :
  game_config "g-2"
    (fst (admin_update_game "g-1" patch_disable
            (ledger [] [] [] (Some (<["g-2" := game_wheel]> {[ "g-1" := game_coin ]})))))
  = Some game_wheel.
Proof.
  rewrite (proj1 (update_frame "g-1" patch_disable
                    (ledger [] [] [] (Some (<["g-2" := game_wheel]> {[ "g-1" := game_coin ]}))))
             "g-2" ltac:(discriminate)).
  reflexivity.
Defined.

Lemma patched_idempotent (payload : Patch) (cur : GameConfig.t) :
  patched payload (patched payload cur) = patched payload cur.
Proof.
  unfold patched. destruct payload as [c f m o e]. cbn.
  destruct c, f, m, o, e; reflexivity.
Qed.

Lemma patched_nothing (cur : GameConfig.t) : patched patch_nothing cur = cur.
Proof. destruct cur. reflexivity. Qed.

(** X15: the update is idempotent, and the empty body changes nothing.
    Sending the same body a second time leaves the ledger of the first
    update; for a game that has a config, the body without fields leaves
    the ledger as it was. *)
Theorem update_idempotent (gameId : string) (payload : Patch) (d : Data)
    (cur : GameConfig.t) :
  game_config gameId d = Some cur ->
  admin_update_game gameId payload (fst (admin_update_game gameId payload d))
  = admin_update_game gameId payload d /\
  fst (admin_update_game gameId patch_nothing d) = d.
Proof.
  intros Hcur. split.
  - rewrite (admin_update_game_found gameId payload d cur Hcur). cbn [fst].
    rewrite (admin_update_game_found gameId payload _ (patched payload cur)).
    + rewrite patched_idempotent. cbn [gameConfigs set_gameConfigs]. simpl.
      rewrite insert_insert_eq. reflexivity.
    + unfold game_config. cbn [gameConfigs set_gameConfigs]. simpl.
      apply lookup_insert_eq.
  - rewrite (admin_update_game_found gameId patch_nothing d cur Hcur). cbn [fst].
    rewrite patched_nothing. unfold game_config in Hcur.
    destruct d as [us ws gs ps cs gp sf]. cbn in *.
    destruct cs as [m|]; [|discriminate]. simpl in *.
    unfold set_gameConfigs. cbn. rewrite insert_id by exact Hcur. reflexivity.
Qed.

Lemma update_idempotent_witness :
  fst (admin_update_game "g-1" patch_nothing (casino game_coin)) = casino game_coin.
Proof.
  apply (proj2 (update_idempotent "g-1" patch_nothing (casino game_coin) game_coin eq_refl)).
Defined.

(** X16: a game that an update has disabled cannot be played.  After an
    update whose body has [enabled: false], every play of this game is
    answered with "Game is disabled", for every account and sample, and
    leaves the ledger as it was. *)
Theorem disabled_game_refuses (g : string) (payload : Patch) (d : Data) (cur : GameConfig.t) :
  g <> "" ->
  game_config g d = Some cur ->
  p_enabled payload = Some false ->
  forall uid rnd feeUuid playUuid now,
    play_secure uid (Some g) rnd feeUuid playUuid now (fst (admin_update_game g payload d))
    = (fst (admin_update_game g payload d), GameDisabled).
Proof.
  intros Hg Hcur Hen uid rnd feeUuid playUuid now.
  rewrite (admin_update_game_found g payload d cur Hcur). cbn [fst].
  unfold play_secure.
  assert (Hm : missing (Some g) = false) by (apply String.eqb_neq; exact Hg).
  rewrite Hm. cbn [str_or_empty gameConfigs set_gameConfigs]. simpl mbind.
  rewrite lookup_insert_eq.
  assert (E : GameConfig.enabled (patched payload cur) = false).
  { unfold patched. cbn. rewrite Hen. reflexivity. }
  rewrite E. reflexivity.
Qed.

Lemma disabled_game_refuses_witness :
  snd (play_secure "alice" (Some "g-1") (1 # 4) "f-1" "pl-1" "2024-01-01T00:00:00.000Z"
         (fst (admin_update_game "g-1" patch_disable (casino game_coin))))
  = GameDisabled.
Proof.
  rewrite (disabled_game_refuses "g-1" patch_disable (casino game_coin) game_coin
             ltac:(discriminate) eq_refl eq_refl).
  reflexivity.
Defined.

(** ** Removal of a photo *)

Lemma length_remove_first {A : Type} (p : A -> bool) (l : list A) (x : A) :
  find p l = Some x -> S (length (remove_first p l)) = length l.
Proof.
  induction l as [|y l IH]; simpl; [discriminate|].
  destruct (p y); [reflexivity|]. intros H. simpl. f_equal. auto.
Qed.

Lemma find_remove_first_other {A : Type} (p q : A -> bool) (l : list A) :
  (forall x, p x = true -> q x = false) ->
  find q (remove_first p l) = find q l.
Proof.
  intros Hpq. induction l as [|y l IH]; simpl; [reflexivity|].
  destruct (p y) eqn:Hy; simpl.
  - rewrite (Hpq y Hy). reflexivity.
  - destruct (q y); [reflexivity|exact IH].
Qed.

Lemma find_none_not_in (id : string) (ps : list Photo.t) :
  ~ In id (map Photo.id ps) -> find (has_photo_id id) ps = None.
Proof.
  induction ps as [|y ps IH]; simpl; [reflexivity|]. intros Hn.
  unfold has_photo_id at 1. destruct (String.eqb (Photo.id y) id) eqn:E.
  - apply String.eqb_eq in E. exfalso. apply Hn. left. exact E.
  - apply IH. intros Hin. apply Hn. right. exact Hin.
Qed.

Lemma find_remove_first_unique (id : string) (ps : list Photo.t) :
  NoDup (map Photo.id ps) ->
  find (has_photo_id id) (remove_first (has_photo_id id) ps) = None.
Proof.
  induction ps as [|y ps IH]; simpl; [reflexivity|]. intros Hnd.
  inversion Hnd as [|? ? Hnotin Hnd']; subst.
  destruct (has_photo_id id y) eqn:Hy.
  - apply find_none_not_in. apply String.eqb_eq in Hy. rewrite <- Hy.
    intros Hin. apply Hnotin. apply list_elem_of_In. exact Hin.
  - simpl. rewrite Hy. apply IH. exact Hnd'.
Qed.

Lemma find_is_photo_none (photoId cid : string) (ps : list Photo.t) :
  find (has_photo_id photoId) ps = None -> find (is_photo photoId cid) ps = None.
Proof.
  induction ps as [|y ps IH]; simpl; [reflexivity|].
  unfold has_photo_id at 1, is_photo at 1.
  destruct (String.eqb (Photo.id y) photoId); [discriminate|]. simpl. exact IH.
Qed.

(** X17: the removal of a photo.  An id that no photo has is answered with
    404 and nothing changes.  Otherwise the first photo with this id is
    removed: the array is one shorter, the photos of the other ids and the
    accounts are as before (no vote is refunded).  When the ids of the
    photos are distinct, no photo has the id afterwards and every vote for
    it is answered with "Photo not found". *)
Theorem delete_photo_contract (id : string) (d : Data) :
  (find (has_photo_id id) (photos d) = None -> admin_delete_photo id d = (d, NotFound)) /\
  (forall p, find (has_photo_id id) (photos d) = Some p ->
     let r := admin_delete_photo id d in
     snd r = Json tt /\
     S (length (photos (fst r))) = length (photos d) /\
     (forall id', id' <> id ->
        find (has_photo_id id') (photos (fst r)) = find (has_photo_id id') (photos d)) /\
     users (fst r) = users d /\
     (unique_photos d ->
        find (has_photo_id id) (photos (fst r)) = None /\
        forall uid cid amount, vote uid cid id amount (fst r) = (fst r, PhotoNotFound))).
Proof.
  split.
  - intros H. unfold admin_delete_photo. rewrite H. reflexivity.
  - intros p Hp r. subst r. unfold admin_delete_photo. rewrite Hp.
    cbn [fst snd photos set_photos users].
    split; [reflexivity|]. split; [|split; [|split]].
    + apply (length_remove_first _ _ p Hp).
    + intros id' Hne. apply find_remove_first_other.
      intros x Hx. unfold has_photo_id in *. apply String.eqb_eq in Hx.
      apply String.eqb_neq. congruence.
    + reflexivity.
    + intros Hu.
      assert (Hnone : find (has_photo_id id) (remove_first (has_photo_id id) (photos d)) = None)
        by (apply find_remove_first_unique; exact Hu).
      split; [exact Hnone|].
      intros uid cid amount. unfold vote. cbn [photos set_photos].
      rewrite (find_is_photo_none id cid _ Hnone). reflexivity.
Qed.

Lemma delete_photo_contract_witness :
  vote "alice" "challenge-1" "p-1" (Num (num 1))
    (fst (admin_delete_photo "p-1" (ledger [alice (num 100)] [] [sunset (Num (num 3))] None)))
  = (ledger [alice (num 100)] [] [] None, PhotoNotFound).
Proof.
  destruct (proj2 (delete_photo_contract "p-1"
                     (ledger [alice (num 100)] [] [sunset (Num (num 3))] None))
              (sunset (Num (num 3))) eq_refl) as (_ & _ & _ & _ & Hu).
  destruct Hu as [_ Hv].
  - apply NoDup_singleton.
  - apply Hv.
Defined.

(** ** Signup *)






(** ** More on the vote *)









(** ** Reading the balance back *)

Lemma wallet_of_balance (uid : string) (d : Data) (c : number) :
  balance uid d = Some c -> wallet uid d = c /\ exists v, profile uid d = Json v /\ v_credits v = c.
Proof.
  unfold balance, wallet, profile. destruct (find_user uid d) as [u|]; [|discriminate].
  intros [= <-]. split; [reflexivity|]. eexists. split; reflexivity.
Qed.

(** X21: the balance an answer reports is the balance read back.  After a
    deposit, a vote or a play of either handler that succeeded, GET
    /api/wallet and GET /api/profile of the same account show the credits
    that the answer carried. *)
Theorem answer_matches_wallet (uid : string) (d : Data) :
  (forall amount c,
     snd (wallet_deposit uid amount d) = Json c ->
     wallet uid (fst (wallet_deposit uid amount d)) = c /\
     exists v, profile uid (fst (wallet_deposit uid amount d)) = Json v /\ v_credits v = c) /\
  (forall cid photoId amount p c,
     snd (vote uid cid photoId amount d) = Json (p, c) ->
     wallet uid (fst (vote uid cid photoId amount d)) = c /\
     exists v, profile uid (fst (vote uid cid photoId amount d)) = Json v /\ v_credits v = c) /\
  (forall body uuid now c play,
     snd (play_simple uid body uuid now d) = Json (c, play) ->
     wallet uid (fst (play_simple uid body uuid now d)) = c /\
     exists v, profile uid (fst (play_simple uid body uuid now d)) = Json v /\
               v_credits v = c) /\
  (forall gameId rnd feeUuid playUuid now c play,
     snd (play_secure uid gameId rnd feeUuid playUuid now d) = Json (c, play) ->
     wallet uid (fst (play_secure uid gameId rnd feeUuid playUuid now d)) = c /\
     exists v, profile uid (fst (play_secure uid gameId rnd feeUuid playUuid now d)) = Json v /\
               v_credits v = c).
Proof.
  split; [|split; [|split]].
  - intros amount c. unfold wallet_deposit.
    destruct (nle (Number amount) (num 0)); [discriminate|].
    destruct (find_user uid d) as [user|] eqn:Hu; [|discriminate].
    cbn [fst snd]. intros [= <-]. apply wallet_of_balance.
    unfold balance, find_user. cbn [users set_users].
    rewrite find_update_first by (intros x; reflexivity).
    unfold find_user in Hu. rewrite Hu. reflexivity.
  - intros cid photoId amount p c. unfold vote.
    destruct (find (is_photo photoId cid) (photos d)) as [photo|]; [|discriminate].
    destruct (find_user uid d) as [user|] eqn:Hu; [|discriminate].
    destruct (nlt (User.credits user) _); [discriminate|].
    cbn [fst snd]. intros [= _ <-]. apply wallet_of_balance.
    unfold balance, find_user. cbn [users set_users].
    rewrite (find_settled uid (debit (nmul (vote_count amount) costPerVote)) user (users d));
      auto.
  - intros body uuid now c play. unfold play_simple.
    destruct (missing (gameId body) || negb (is_number (cost body))); [discriminate|].
    destruct (find_user uid d) as [user|] eqn:Hu; [|discriminate].
    destruct (nlt (User.credits user) _); [discriminate|].
    cbn [fst snd]. intros [= <- _]. apply wallet_of_balance.
    unfold balance, find_user. cbn [users set_users].
    rewrite (find_settled_play uid _ _ user (users d) Hu). reflexivity.
  - intros gameId rnd feeUuid playUuid now c play. unfold play_secure.
    destruct (missing gameId); [discriminate|].
    destruct (gameConfigs d ≫= _) as [cfg|]; [|discriminate].
    destruct (negb (GameConfig.enabled cfg)); [discriminate|].
    destruct (find_user uid d) as [user|] eqn:Hu; [|discriminate].
    destruct (nlt (User.credits user) _); [discriminate|].
    cbn [fst snd]. intros [= <- _]. apply wallet_of_balance.
    unfold balance, find_user. cbn [users set_users].
    rewrite (find_settled_play uid _ _ user (users d) Hu). reflexivity.
Qed.

Lemma answer_matches_wallet_witness :
  wallet "alice" (fst (wallet_deposit "alice" (Num (num 25)) (ledger [alice (num 100)] [] [] None)))
  = num 125.
Proof.
  apply (proj1 (proj1 (answer_matches_wallet "alice" (ledger [alice (num 100)] [] [] None))
                  (Num (num 25)) (num 125) eq_refl)).
Defined.

(** ** What a decision touches *)

Lemma map_update_first {A B : Type} (k : A -> B) (p : A -> bool) (f : A -> A) (l : list A) :
  (forall x, k (f x) = k x) -> map k (update_first p f l) = map k l.
Proof.
  intros Hk. induction l as [|x l IH]; simpl; [reflexivity|].
  destruct (p x); simpl; [rewrite Hk; reflexivity|congruence].
Qed.

Lemma map_id_replace_user (user' : User.t) (us : list User.t) :
  map User.id (replace_user user' us) = map User.id us.
Proof.
  induction us as [|x us IH]; simpl; [reflexivity|].
  destruct (String.eqb (User.id x) (User.id user')) eqn:E; simpl; [|congruence].
  apply String.eqb_eq in E. congruence.
Qed.

Lemma decision_frame_ids (id action now : string) (d : Data) :
  map User.id (users (fst (admin_withdraw id action now d))) = map User.id (users d).
Proof.
  unfold admin_withdraw.
  destruct (find (is_withdraw id) (withdraws d)) as [w|]; [|reflexivity].
  destruct (negb (existsb (String.eqb action) ["approve"; "reject"])); [reflexivity|].
  destruct (String.eqb action "approve"); [|reflexivity].
  cbn iota. destruct (find_user _ _); [|reflexivity].
  cbn [fst users set_users set_withdraws]. apply map_update_first. intros x. reflexivity.
Qed.

(** X22: what a decision on a request touches.  Of the requests it changes
    the status and the processing time of one, the first with the id: the
    ids, owners, amounts, destinations and creation times of all requests,
    and the requests of the other ids, are as before.  Of the accounts it
    changes at most the balance of the owner of the request.  The photos,
    the configs, the plays and the fee records are left as they were. *)
Theorem decision_frame (id action now : string) (d : Data) :
  let d' := fst (admin_withdraw id action now d) in
  map request_core (withdraws d') = map request_core (withdraws d) /\
  (forall id', id' <> id ->
     find (is_withdraw id') (withdraws d') = find (is_withdraw id') (withdraws d)) /\
  (forall w uid', find (is_withdraw id) (withdraws d) = Some w ->
     uid' <> Withdraw.userId w -> balance uid' d' = balance uid' d) /\
  map User.id (users d') = map User.id (users d) /\
  photos d' = photos d /\
  gameConfigs d' = gameConfigs d /\
  gamePlays d' = gamePlays d /\
  systemFees d' = systemFees d.
Proof.
  unfold admin_withdraw.
  destruct (find (is_withdraw id) (withdraws d)) as [w|] eqn:Hw.
  2:{ cbn [fst]. repeat split. }
  destruct (negb (existsb (String.eqb action) ["approve"; "reject"])).
  { cbn [fst]. repeat split. }
  set (s := if String.eqb action "approve" then approved else rejected).
  assert (Hcore : map request_core
                    (update_first (is_withdraw id) (Withdraw.process s now) (withdraws d))
                  = map request_core (withdraws d)).
  { apply map_update_first. intros x. reflexivity. }
  assert (Hother : forall id', id' <> id ->
            find (is_withdraw id')
              (update_first (is_withdraw id) (Withdraw.process s now) (withdraws d))
            = find (is_withdraw id') (withdraws d)).
  { intros id' Hne. apply find_update_first_other.
    - intros x. reflexivity.
    - intros x Hx. unfold is_withdraw in *. apply String.eqb_eq in Hx.
      apply String.eqb_neq. congruence. }
  destruct s.
  - repeat split; assumption || (intros; reflexivity).
  - cbn [Withdraw.userId Withdraw.amount Withdraw.process].
    destruct (find_user (Withdraw.userId w) _) as [u|];
      cbn [fst withdraws users photos gameConfigs gamePlays systemFees set_users set_withdraws].
    + split; [exact Hcore|]. split; [exact Hother|]. split; [|split; [|repeat split]].
      * intros w0 uid' [= <-] Hne. unfold balance, find_user. cbn [users set_users].
        rewrite find_update_first_other; [reflexivity| |].
        -- intros x. reflexivity.
        -- intros x. apply is_user_other. congruence.
      * apply map_update_first. intros x. reflexivity.
    + repeat split; assumption || (intros; reflexivity).
  - repeat split; assumption || (intros; reflexivity).
Qed.

Lemma decision_frame_witness :
  balance "bob"
    (fst (admin_withdraw "w-1" "approve" "2024-01-05T00:00:00.000Z"
            (ledger [alice (num 30); bob (num 7)] [request50 pending None] [] None)))
  = Some (num 7).
Proof.
  apply (proj1 (proj2 (proj2
    (decision_frame "w-1" "approve" "2024-01-05T00:00:00.000Z"
       (ledger [alice (num 30); bob (num 7)] [request50 pending None] [] None))))
    (request50 pending None) "bob" eq_refl).
  discriminate.
Defined.

(** ** Accounts are kept *)

(** X23: no handler removes, renames or reorders an account.  After a
    deposit, a withdrawal request, a decision, a vote, the removal of a
    photo, a play of either handler or a config update, the ids of the
    accounts are the ones before, in the same order; a signup appends the id
    it drew, or changes nothing. *)
Theorem accounts_are_kept (d : Data) :
  (forall email name uuid token,
     map User.id (users (fst (signup email name uuid token d))) = map User.id (users d) \/
     map User.id (users (fst (signup email name uuid token d)))
     = (map User.id (users d) ++ [uuid])%list) /\
  (forall uid amount,
     map User.id (users (fst (wallet_deposit uid amount d))) = map User.id (users d)) /\
  (forall uid amount upi utr uuid now,
     map User.id (users (fst (wallet_withdraw uid amount upi utr uuid now d)))
     = map User.id (users d)) /\
  (forall id action now,
     map User.id (users (fst (admin_withdraw id action now d))) = map User.id (users d)) /\
  (forall uid cid photoId amount,
     map User.id (users (fst (vote uid cid photoId amount d))) = map User.id (users d)) /\
  (forall id,
     map User.id (users (fst (admin_delete_photo id d))) = map User.id (users d)) /\
  (forall uid body uuid now,
     map User.id (users (fst (play_simple uid body uuid now d))) = map User.id (users d)) /\
  (forall uid gameId rnd feeUuid playUuid now,
     map User.id (users (fst (play_secure uid gameId rnd feeUuid playUuid now d)))
     = map User.id (users d)) /\
  (forall gameId payload,
     map User.id (users (fst (admin_update_game gameId payload d))) = map User.id (users d)).
Proof.
  assert (Hsettle : forall uid c award user,
    map User.id
      (replace_user user
         (update_first (is_user uid) (fun u => credit_if_positive award (debit c u)) (users d)))
    = map User.id (users d)).
  { intros uid c award user. rewrite map_id_replace_user. apply map_update_first.
    intros x. unfold credit_if_positive. destruct (ngt award (num 0)); reflexivity. }
  repeat split.
  - intros email name uuid token. unfold signup.
    destruct (find (has_email email) (users d)); [left; reflexivity|right].
    cbn [fst users set_users]. rewrite map_app. reflexivity.
  - intros uid amount. unfold wallet_deposit.
    destruct (nle (Number amount) (num 0)); [reflexivity|].
    destruct (find_user uid d); [|reflexivity].
    cbn [fst users set_users]. apply map_update_first. intros x. reflexivity.
  - intros uid amount upi utr uuid now. unfold wallet_withdraw.
    destruct (nle (Number amount) (num 0)); [reflexivity|].
    destruct (find_user uid d) as [user|]; [|reflexivity].
    destruct (nlt (User.credits user) (Number amount)); reflexivity.
  - intros id action now. apply (decision_frame_ids id action now d).
  - intros uid cid photoId amount. unfold vote.
    destruct (find (is_photo photoId cid) (photos d)) as [photo|]; [|reflexivity].
    destruct (find_user uid d) as [user|]; [|reflexivity].
    destruct (nlt (User.credits user) _); [reflexivity|].
    cbn [fst users set_users]. rewrite map_id_replace_user. apply map_update_first.
    intros x. reflexivity.
  - intros id. unfold admin_delete_photo.
    destruct (find (has_photo_id id) (photos d)); reflexivity.
  - intros uid body uuid now. unfold play_simple.
    destruct (missing (gameId body) || negb (is_number (cost body))); [reflexivity|].
    destruct (find_user uid d) as [user|]; [|reflexivity].
    destruct (nlt (User.credits user) _); [reflexivity|].
    cbn [fst users set_users]. apply Hsettle.
  - intros uid gameId rnd feeUuid playUuid now. unfold play_secure.
    destruct (missing gameId); [reflexivity|].
    destruct (gameConfigs d ≫= _) as [cfg|]; [|reflexivity].
    destruct (negb (GameConfig.enabled cfg)); [reflexivity|].
    destruct (find_user uid d) as [user|]; [|reflexivity].
    destruct (nlt (User.credits user) _); [reflexivity|].
    cbn [fst users set_users]. apply Hsettle.
  - intros gameId payload. unfold admin_update_game.
    destruct (default ∅ (gameConfigs d) !! gameId); reflexivity.
Qed.

(** ** The outcome grows with the sample *)

(** X24: the odds walk is monotone in the sample: of two samples, the
    larger one never ends on an earlier outcome. *)
Theorem odds_walk_monotone (r1 r2 : Q) (odds : list value) (i1 i2 : nat) :
  r1 <= r2 ->
  chosen_index (Fin r1) odds 0 (num 0) = Some i1 ->
  chosen_index (Fin r2) odds 0 (num 0) = Some i2 ->
  (i1 <= i2)%nat.
Proof.
  intros Hr H1 H2.
  apply chosen_index_first in H1. apply chosen_index_first in H2.
  destruct H1 as (_ & _ & Hlt1). destruct H2 as (_ & Hle2 & _).
  destruct (Nat.le_gt_cases i1 i2) as [Hle|Hgt]; [exact Hle|].
  specialize (Hlt1 i2 Hgt). lra.
Qed.

Lemma odds_walk_monotone_witness : (0 <= 2)%nat.
Proof.
  apply (odds_walk_monotone (5 # 100) (99 # 100)
           (or_empty (GameConfig.odds game_wheel)) 0 2).
  - vm_compute. discriminate.
  - reflexivity.
  - reflexivity.
Defined.
